(** * Transfer-learning trainer ([ImageClassifier/train.py])

    A shallow embedding of the training script: model assembly
    ([load_model]), the training / validation loop ([train_model]), the
    checkpoint writer ([save_checkpoint]) and the driver ([main]).

    Tensor arithmetic, the pretrained weights, automatic differentiation and
    the Adam update are the business of PyTorch; they enter through the
    interfaces [Numeric] and [Torch] below and every theorem holds for all
    their implementations.  What is modelled in full is the script's own
    control flow, its mutable objects and the calls it makes. *)

From Stdlib Require Import ZArith List String Bool Arith Lia.
Import ListNotations.

Set Implicit Arguments.
Local Open Scope string_scope.
Local Open Scope list_scope.
Local Open Scope Z_scope.

(** ** Exceptions and results *)

(** Faults raised inside PyTorch calls the script makes. *)
Inductive TorchFault :=
| NoCudaDevice        (* a tensor or module is moved to "cuda" and there is none *)
| NegativeDimension   (* [nn.Linear] asked for a tensor with a negative size *)
| StateDictMismatch.  (* [load_state_dict] with missing or unexpected keys *)

Inductive Exn :=
| ZeroDivisionError
| IndexError
| KeyError (key : string)
| AttributeError (name : string)
| FileNotFoundError (path : string)
| ArgumentError (flag : string)     (* argparse rejecting a value *)
| RuntimeError (fault : TorchFault).

Inductive Result (A : Type) :=
| Ok (a : A)
| Raise (e : Exn).
Arguments Raise {A} e.

Definition rbind {A B} (r : Result A) (k : A -> Result B) : Result B :=
  match r with
  | Ok a => k a
  | Raise e => Raise e
  end.

Declare Scope result_scope.
Delimit Scope result_scope with result.
Notation "'try' x <- c ; k" := (rbind c (fun x => k))
  (at level 10, x name, c at level 100, k at level 200) : result_scope.

(** ** Numbers and tensors *)

(** Python floats and the tensors of PyTorch, kept abstract.  [of_int] is
    the conversion Python applies to an [int] operand of a float
    operation; [fdiv] is IEEE division and never raises (the check for a
    zero divisor that Python's [/] performs is [py_div] below). *)
Class Numeric := {
  scalar : Type;
  tensor : Type;
  images : Type;
  of_int : Z -> scalar;
  fadd : scalar -> scalar -> scalar;
  fdiv : scalar -> scalar -> scalar;
  fexp : scalar -> scalar;
  fltb : scalar -> scalar -> bool;
  tensor_add : tensor -> tensor -> tensor
}.

Inductive Device := cpu | cuda.

Definition Device_eqb (a b : Device) : bool :=
  match a, b with
  | cpu, cpu | cuda, cuda => true
  | _, _ => false
  end.

(** ** Modules and parameters *)

Inductive Layer :=
| Linear (in_features out_features : Z)
| ReLU
| Dropout
| LogSoftmax (dim : Z).

Section DataModel.
Context {N : Numeric}.

(** A [torch.nn.Parameter]: its value, the [requires_grad] flag and the
    gradient slot filled by [backward]. *)
Record Param := mkParam {
  data : tensor;
  requires_grad : bool;
  grad : option tensor
}.

(** A submodule holding an ordered dictionary of named layers together
    with the parameters those layers own ("fc1.weight", "fc1.bias", ...). *)
Record Sequential := mkSequential {
  layers : list (string * Layer);
  parameters : list (string * Param)
}.

(** The torchvision models used here are a convolutional part [features]
    and a [classifier]; [class_to_idx] is an attribute the script adds. *)
Record Model := mkModel {
  features : list (string * Param);
  classifier : Sequential;
  training : bool;
  device : Device;
  class_to_idx : option (list (string * Z))
}.

(** The dotted names of [named_parameters] / [state_dict]:
    "features.<name>" and "classifier.<name>". *)
Inductive ParamPath :=
| InFeatures (name : string)
| InClassifier (name : string).

Definition ParamPath_eqb (p q : ParamPath) : bool :=
  match p, q with
  | InFeatures a, InFeatures b => String.eqb a b
  | InClassifier a, InClassifier b => String.eqb a b
  | _, _ => false
  end.

Definition set_requires_grad (b : bool) (p : Param) : Param :=
  mkParam (data p) b (grad p).

Definition set_data (t : tensor) (p : Param) : Param :=
  mkParam t (requires_grad p) (grad p).

Definition set_grad (g : option tensor) (p : Param) : Param :=
  mkParam (data p) (requires_grad p) g.

Definition map_params (f : Param -> Param)
    (ps : list (string * Param)) : list (string * Param) :=
  map (fun np => (fst np, f (snd np))) ps.

(** Update the parameter object called [name], if the list has one. *)
Definition alter_named (f : Param -> Param) (name : string)
    (ps : list (string * Param)) : list (string * Param) :=
  map (fun np => if String.eqb (fst np) name then (fst np, f (snd np)) else np) ps.

Fixpoint lookup {V : Type} (name : string) (l : list (string * V)) : option V :=
  match l with
  | [] => None
  | (n, v) :: rest => if String.eqb n name then Some v else lookup name rest
  end.

Definition set_features (fs : list (string * Param)) (m : Model) : Model :=
  mkModel fs (classifier m) (training m) (device m) (class_to_idx m).

(** [model.classifier = c] *)
Definition set_classifier (c : Sequential) (m : Model) : Model :=
  mkModel (features m) c (training m) (device m) (class_to_idx m).

Definition set_classifier_parameters (ps : list (string * Param)) (m : Model) : Model :=
  set_classifier (mkSequential (layers (classifier m)) ps) m.

(** [model.train()] and [model.eval()] *)
Definition set_training (b : bool) (m : Model) : Model :=
  mkModel (features m) (classifier m) b (device m) (class_to_idx m).

Definition set_device (d : Device) (m : Model) : Model :=
  mkModel (features m) (classifier m) (training m) d (class_to_idx m).

(** [model.class_to_idx = c] *)
Definition set_class_to_idx (c : list (string * Z)) (m : Model) : Model :=
  mkModel (features m) (classifier m) (training m) (device m) (Some c).

(** [model.parameters()], in registration order, with their paths. *)
Definition named_parameters (m : Model) : list (ParamPath * Param) :=
  map (fun np => (InFeatures (fst np), snd np)) (features m) ++
  map (fun np => (InClassifier (fst np), snd np)) (parameters (classifier m)).

Definition classifier_parameters (m : Model) : list ParamPath :=
  map (fun np => InClassifier (fst np)) (parameters (classifier m)).

Definition get_param (path : ParamPath) (m : Model) : option Param :=
  match path with
  | InFeatures n => lookup n (features m)
  | InClassifier n => lookup n (parameters (classifier m))
  end.

Definition alter_param (f : Param -> Param) (path : ParamPath) (m : Model) : Model :=
  match path with
  | InFeatures n => set_features (alter_named f n (features m)) m
  | InClassifier n =>
      set_classifier_parameters (alter_named f n (parameters (classifier m))) m
  end.

(** The parameters an optimizer would change: those with [requires_grad]. *)
Definition trainable_parameters (m : Model) : list ParamPath :=
  map fst (filter (fun pp => requires_grad (snd pp)) (named_parameters m)).

(** [model.state_dict()]: every parameter's value under its dotted name. *)
Definition state_dict (m : Model) : list (ParamPath * tensor) :=
  map (fun pp => (fst pp, data (snd pp))) (named_parameters m).

End DataModel.

(** ** What PyTorch and torchvision provide *)

(** [models_vgg16] and [models_densenet121] are [models.vgg16(pretrained=True)]
    and [models.densenet121(pretrained=True)]; [init_weight] / [init_bias]
    give the initial value of a fresh [nn.Linear]; [forward] is
    [model.forward]; [backward_grad c m x y p] is the gradient with respect
    to parameter [p] of [c (forward m x) y]; [adam] is one Adam update of
    one parameter. *)
Class Torch {N : Numeric} := {
  models_vgg16 : Model;
  models_densenet121 : Model;
  init_weight : string -> Z -> Z -> tensor;
  init_bias : string -> Z -> tensor;
  forward : Model -> images -> list (list scalar);
  backward_grad : (list (list scalar) -> list Z -> scalar) ->
                  Model -> images -> list Z -> ParamPath -> tensor;
  adam_state : Type;
  adam : scalar -> option adam_state -> tensor -> tensor -> adam_state * tensor
}.

Section Assembly.
Context {N : Numeric} {T : Torch}.
Local Open Scope result_scope.

(** [nn.Linear(i, o)] registered under [name]: allocating a tensor with a
    negative size raises. *)
Definition nn_Linear (name : string) (i o : Z)
  : Result (string * Layer * list (string * Param)) :=
  if (i <? 0) || (o <? 0) then Raise (RuntimeError NegativeDimension)
  else Ok (name, Linear i o,
           [ ((name ++ ".weight")%string, mkParam (init_weight name i o) true None);
             ((name ++ ".bias")%string, mkParam (init_bias name o) true None) ]).

Definition nn_ReLU (name : string) : string * Layer * list (string * Param) :=
  (name, ReLU, []).

Definition nn_LogSoftmax (name : string) (dim : Z)
  : string * Layer * list (string * Param) :=
  (name, LogSoftmax dim, []).

(** [nn.Sequential(OrderedDict(entries))] *)
Definition nn_Sequential (entries : list (string * Layer * list (string * Param)))
  : Sequential :=
  mkSequential (map fst entries) (flat_map snd entries).

(** Lines 44-51 of [load_model]: the classifier head. *)
Definition build_classifier (num_in_features hidden_units : Z) : Result Sequential :=
  try fc1 <- nn_Linear "fc1" num_in_features hidden_units;
  let relu1 := nn_ReLU "relu1" in
  try fc2 <- nn_Linear "fc2" hidden_units hidden_units;
  let relu2 := nn_ReLU "relu2" in
  try fc3 <- nn_Linear "fc3" hidden_units 102;
  let output := nn_LogSoftmax "output" 1 in
  Ok (nn_Sequential [fc1; relu1; fc2; relu2; fc3; output]).

(** [for param in model.parameters(): param.requires_grad = False] *)
Definition freeze (m : Model) : Model :=
  set_classifier_parameters
    (map_params (set_requires_grad false) (parameters (classifier m)))
    (set_features (map_params (set_requires_grad false) (features m)) m).

(** [x.to(device)]: moving anything to "cuda" initialises CUDA and raises
    when the machine has no such device. *)
Definition to_device {A} (cuda_available : bool) (x : A) (d : Device) : Result A :=
  match d with
  | cpu => Ok x
  | cuda => if cuda_available then Ok x else Raise (RuntimeError NoCudaDevice)
  end.

(** [load_model(arch, hidden_units, gpu)].  [cuda_available] is the
    machine the script runs on. *)
Definition load_model (cuda_available : bool) (arch : string) (hidden_units : Z)
    (gpu : bool) : Result (Model * Device * Z) :=
  let device := if gpu then cuda else cpu in
  let '(model, num_in_features) :=
    if String.eqb arch "vgg16" then (models_vgg16, 25088)
    else (models_densenet121, 1024) in
  let model := freeze model in
  try classifier <- build_classifier num_in_features hidden_units;
  let model := set_classifier classifier model in
  try model <- to_device cuda_available (set_device device model) device;
  Ok (model, device, num_in_features).

End Assembly.

(** ** The optimizer *)

Section Optimizer.
Context {N : Numeric} {T : Torch}.

(** An optimizer holds references to parameter objects of the model (here
    their paths), the learning rate, and one Adam state per referenced
    parameter, by position; a state is [None] until the first update. *)
Record Optimizer := mkOptimizer {
  param_group : list ParamPath;
  lr : scalar;
  state : list (option adam_state)
}.

(** [optim.Adam(params, lr=lr)] *)
Definition optim_Adam (params : list ParamPath) (lr : scalar) : Optimizer :=
  mkOptimizer params lr (map (fun _ => None) params).

(** [optimizer.zero_grad()]: the gradients of the referenced parameters
    are dropped. *)
Definition zero_grad (o : Optimizer) (m : Model) : Model :=
  fold_left (fun m p => alter_param (set_grad None) p m) (param_group o) m.

(** [loss.backward()]: a parameter that requires a gradient gets one, added
    to what its slot already holds. *)
Definition accumulate (g : tensor) (p : Param) : Param :=
  if requires_grad p
  then set_grad (Some (match grad p with
                       | None => g
                       | Some old => tensor_add old g
                       end)) p
  else p.

Definition loss_backward (criterion : list (list scalar) -> list Z -> scalar)
    (inputs : images) (labels : list Z) (m : Model) : Model :=
  let g := backward_grad criterion m inputs labels in
  set_classifier_parameters
    (map (fun np => (fst np, accumulate (g (InClassifier (fst np))) (snd np)))
         (parameters (classifier m)))
    (set_features
       (map (fun np => (fst np, accumulate (g (InFeatures (fst np))) (snd np)))
            (features m))
       m).

(** [optimizer.step()]: every referenced parameter that has a gradient is
    updated in place; the others, and parameters the optimizer does not
    reference, are left alone. *)
Fixpoint adam_step (rate : scalar) (ps : list ParamPath)
    (sts : list (option adam_state)) (m : Model)
  : list (option adam_state) * Model :=
  match ps, sts with
  | p :: ps', st :: sts' =>
      match get_param p m with
      | Some prm =>
          match grad prm with
          | Some g =>
              let '(st', d') := adam rate st (data prm) g in
              let '(rest, m') := adam_step rate ps' sts' (alter_param (set_data d') p m) in
              (Some st' :: rest, m')
          | None =>
              let '(rest, m') := adam_step rate ps' sts' m in (st :: rest, m')
          end
      | None =>
          let '(rest, m') := adam_step rate ps' sts' m in (st :: rest, m')
      end
  | _, _ => (sts, m)
  end.

Definition optimizer_step (o : Optimizer) (m : Model) : Optimizer * Model :=
  let '(sts, m') := adam_step (lr o) (param_group o) (state o) m in
  (mkOptimizer (param_group o) (lr o) sts, m').

(** [optimizer.state_dict()]: the per-parameter states and the
    hyper-parameters of the group, parameters named by position. *)
Record OptimizerState := mkOptimizerState {
  os_state : list (option adam_state);
  os_lr : scalar;
  os_params : list nat
}.

Definition optimizer_state_dict (o : Optimizer) : OptimizerState :=
  mkOptimizerState (state o) (lr o) (seq 0 (List.length (param_group o))).

End Optimizer.

(** ** Data sources *)

Section Loaders.
Context {N : Numeric}.

(** A [DataLoader] over a dataset of fixed size: every pass over it yields
    [num_batches] batches, and which ones depends on the pass (shuffling,
    random augmentation). *)
Record DataLoader := mkDataLoader {
  num_batches : nat;
  batch_at : nat -> nat -> images * list Z
}.

(** [len(loader)] *)
Definition len (l : DataLoader) : Z := Z.of_nat (num_batches l).

Definition batches_of (l : DataLoader) (pass : nat) : list (images * list Z) :=
  map (batch_at l pass) (seq 0 (num_batches l)).

(** Position of every element, as [enumerate] would give it; the loops
    below use it only to label what they log. *)
Definition enumerate {A} (l : list A) : list (nat * A) :=
  combine (seq 0 (List.length l)) l.

End Loaders.

(** ** The training session *)

Section Training.
Context {N : Numeric} {T : Torch}.

Record Report := mkReport {
  rep_epoch : Z;
  rep_epochs : Z;
  train_loss : scalar;
  test_loss : scalar;
  test_accuracy : scalar
}.

(** What [print] writes. *)
Inductive Line :=
| ModelIsTraining
| Metrics (r : Report)
| ModelTrainedIn.

(** The log of a run.  [Print] is the script's output; the other events
    record, for the proofs, which step of the loops was taken and in which
    mode the model was called. *)
Inductive Event :=
| TrainStep (epoch batch : nat) (steps : Z) (loss : scalar)
| Validation (epoch batch : nat) (steps : Z)
| ValForward (batch : nat) (training_mode grad_mode : bool) (loss acc : scalar)
| Print (line : Line).

(** The objects [train_model] works on: the model and the optimizer are
    shared with the caller and mutated in place. *)
Record Session := mkSession {
  the_model : Model;
  the_optimizer : Optimizer;
  grad_enabled : bool;
  passes : nat;
  log : list Event
}.

Definition M (A : Type) : Type := Session -> Result A * Session.

Definition ret {A} (a : A) : M A := fun s => (Ok a, s).

Definition bind {A B} (c : M A) (k : A -> M B) : M B :=
  fun s => match c s with
           | (Ok a, s') => k a s'
           | (Raise e, s') => (Raise e, s')
           end.

Definition lift {A} (r : Result A) : M A := fun s => (r, s).

Definition gets {A} (f : Session -> A) : M A := fun s => (Ok (f s), s).

Definition modify (f : Session -> Session) : M unit := fun s => (Ok tt, f s).

End Training.

Declare Scope train_scope.
Delimit Scope train_scope with train.
Notation "x <- c ;; k" := (bind c (fun x => k))
  (at level 61, c at next level, right associativity) : train_scope.
Notation "' pat <- c ;; k" := (bind c (fun x => match x with pat => k end))
  (at level 61, pat pattern, c at next level, right associativity) : train_scope.
Notation "c ;; k" := (bind c (fun _ => k))
  (at level 61, right associativity) : train_scope.

Section TrainModel.
Context {N : Numeric} {T : Torch}.
Local Open Scope train_scope.

Definition set_model (m : Model) (s : Session) : Session :=
  mkSession m (the_optimizer s) (grad_enabled s) (passes s) (log s).

Definition set_grad_enabled (b : bool) (s : Session) : Session :=
  mkSession (the_model s) (the_optimizer s) b (passes s) (log s).

Definition emit (e : Event) : M unit :=
  modify (fun s => mkSession (the_model s) (the_optimizer s) (grad_enabled s) (passes s)
                             (log s ++ [e])).

(** Starting a pass over a loader. *)
Definition iter (l : DataLoader) : M (list (images * list Z)) :=
  fun s => (Ok (batches_of l (passes s)),
            mkSession (the_model s) (the_optimizer s) (grad_enabled s) (S (passes s)) (log s)).

(** A [for] loop over a list, threading the local variables it assigns. *)
Fixpoint for_each {A L} (xs : list A) (body : A -> L -> M L) (locals : L) : M L :=
  match xs with
  | [] => ret locals
  | x :: rest => locals' <- body x locals ;; for_each rest body locals'
  end.

(** [with torch.no_grad():] the previous mode comes back on the way out,
    also when the body raises. *)
Definition with_no_grad {A} (body : M A) : M A :=
  fun s => let '(r, s') := body (set_grad_enabled false s) in
           (r, set_grad_enabled (grad_enabled s) s').

(** Python's [x / n] for an [int] [n]. *)
Definition py_div (x : scalar) (n : Z) : Result scalar :=
  if n =? 0 then Raise ZeroDivisionError else Ok (fdiv x (of_int n)).

(** [range(n)] *)
Definition range (n : Z) : list nat := seq 0 (Z.to_nat n).

(** [ps.topk(1, dim=1)]: per row, the position of the largest entry (the
    first one among equals). *)
Fixpoint argmax_from (best : nat) (best_p : scalar) (i : nat) (row : list scalar) : nat :=
  match row with
  | [] => best
  | p :: rest =>
      if fltb best_p p then argmax_from i p (S i) rest
      else argmax_from best best_p (S i) rest
  end.

Definition top_class (row : list scalar) : Z :=
  match row with
  | [] => 0
  | p :: rest => Z.of_nat (argmax_from 0%nat p 1%nat rest)
  end.

(** [torch.mean(equals.type(torch.FloatTensor)).item()] *)
Definition mean_of_equals (equals : list bool) : scalar :=
  fdiv (fold_left fadd (map (fun b : bool => if b then of_int 1 else of_int 0) equals)
                  (of_int 0))
       (of_int (Z.of_nat (List.length equals))).

(** Top-1 accuracy of one batch (lines 90-93). *)
Definition batch_accuracy (logps : list (list scalar)) (labels : list Z) : scalar :=
  let ps := map (map fexp) logps in
  let top := map top_class ps in
  let equals := map (fun tl => fst tl =? snd tl) (combine top labels) in
  mean_of_equals equals.

Section Loop.
Variable cuda_available : bool.
Variable epochs : Z.
Variable trainloader validateloader : DataLoader.
Variable device : Device.
Variable criterion : list (list scalar) -> list Z -> scalar.

(** Lines 85-93: one batch of the validation source. *)
Definition validate_batch (ib : nat * (images * list Z)) (acc : scalar * scalar)
  : M (scalar * scalar) :=
  let '(test_loss, accuracy) := acc in
  inputs <- lift (to_device cuda_available (fst (snd ib)) device) ;;
  labels <- lift (to_device cuda_available (snd (snd ib)) device) ;;
  m <- gets the_model ;;
  g <- gets grad_enabled ;;
  let logps := forward m inputs in
  let loss := criterion logps labels in
  let test_loss := fadd test_loss loss in
  let a := batch_accuracy logps labels in
  let accuracy := fadd accuracy a in
  emit (ValForward (fst ib) (training m) g loss a) ;;
  ret (test_loss, accuracy).

(** Lines 80-100: the body of [if steps % print_every == 0].  It returns
    the new value of [running_loss]. *)
Definition validate (print_every : Z) (epoch : nat) (running_loss : scalar) : M scalar :=
  let test_loss := of_int 0 in
  let accuracy := of_int 0 in
  modify (fun s => set_model (set_training false (the_model s)) s) ;;
  ' (test_loss, accuracy) <-
    with_no_grad (batches <- iter validateloader ;;
                  for_each (enumerate batches) validate_batch (test_loss, accuracy)) ;;
  train_avg <- lift (py_div running_loss print_every) ;;
  test_avg <- lift (py_div test_loss (len validateloader)) ;;
  acc_avg <- lift (py_div accuracy (len validateloader)) ;;
  emit (Print (Metrics (mkReport (Z.of_nat epoch + 1) epochs train_avg test_avg acc_avg))) ;;
  let running_loss := of_int 0 in
  modify (fun s => set_model (set_training true (the_model s)) s) ;;
  ret running_loss.

(** Lines 70-100: the body of the loop over the training batches.  The
    locals it assigns are [steps] and [running_loss]. *)
Definition train_batch (print_every : Z) (epoch : nat) (ib : nat * (images * list Z))
    (locals : Z * scalar) : M (Z * scalar) :=
  let '(steps, running_loss) := locals in
  let steps := steps + 1 in
  inputs <- lift (to_device cuda_available (fst (snd ib)) device) ;;
  labels <- lift (to_device cuda_available (snd (snd ib)) device) ;;
  modify (fun s => set_model (zero_grad (the_optimizer s) (the_model s)) s) ;;
  m <- gets the_model ;;
  let logps := forward m inputs in
  let loss := criterion logps labels in
  modify (fun s => set_model (loss_backward criterion inputs labels (the_model s)) s) ;;
  modify (fun s => let om := optimizer_step (the_optimizer s) (the_model s) in
                   mkSession (snd om) (fst om) (grad_enabled s) (passes s) (log s)) ;;
  let running_loss := fadd running_loss loss in
  emit (TrainStep epoch (fst ib) steps loss) ;;
  if steps mod print_every =? 0
  then emit (Validation epoch (fst ib) steps) ;;
       running_loss <- validate print_every epoch running_loss ;;
       ret (steps, running_loss)
  else ret (steps, running_loss).

(** Lines 68-69: one epoch. *)
Definition train_epoch (print_every : Z) (epoch : nat) (locals : Z * scalar)
  : M (Z * scalar) :=
  batches <- iter trainloader ;;
  for_each (enumerate batches) (train_batch print_every epoch) locals.

(** [train_model(epochs, trainloader, validateloader, model, device,
    criterion, optimizer)]; [model] and [optimizer] are in the session. *)
Definition train_model : M unit :=
  let steps := 0 in
  let running_loss := of_int 0 in
  let print_every := 5 in
  emit (Print ModelIsTraining) ;;
  _ <- for_each (range epochs) (train_epoch print_every) (steps, running_loss) ;;
  emit (Print ModelTrainedIn) ;;
  ret tt.

End Loop.
End TrainModel.

(** ** Checkpoints *)

Section Checkpoint.
Context {N : Numeric} {T : Torch}.
Local Open Scope result_scope.

(** What the values of the checkpoint dictionary can be. *)
Inductive Value :=
| VStr (s : string)
| VInt (z : Z)
| VFloat (x : scalar)
| VModule (c : Sequential)
| VStateDict (sd : list (ParamPath * tensor))
| VClassToIdx (c : list (string * Z))
| VOptimizer (o : OptimizerState).

(** A Python [dict] with string keys, in insertion order. *)
Definition Dict := list (string * Value).

(** The files [torch.save] has written, by path. *)
Definition Files := list (string * Dict).

(** [torch.save(obj, path)]: whatever was at [path] is replaced. *)
Definition torch_save (obj : Dict) (path : string) (fs : Files) : Files :=
  (path, obj) :: filter (fun f => negb (String.eqb (fst f) path)) fs.

(** An [ImageFolder] dataset, as far as the script looks at it. *)
Record ImageFolder := mkImageFolder {
  ds_class_to_idx : list (string * Z)
}.

(** [l[i]] *)
Definition getitem {A} (l : list A) (i : nat) : Result A :=
  match nth_error l i with
  | Some a => Ok a
  | None => Raise IndexError
  end.

(** [save_checkpoint(file_path, model, image_datasets, epochs, optimizer,
    learning_rate, input_size, output_size, arch, hidden_units)].  The
    model is changed in place and a file is written; both come back (the
    message printed at the end is left out). *)
Definition save_checkpoint (file_path : string) (model : Model)
    (image_datasets : list ImageFolder) (epochs : Z) (optimizer : Optimizer)
    (learning_rate : scalar) (input_size output_size : Z) (arch : string)
    (hidden_units : Z) (fs : Files) : Result (Model * Files) :=
  try first <- getitem image_datasets 0;
  let model := set_class_to_idx (ds_class_to_idx first) model in
  try c2i <- match class_to_idx model with
             | Some c => Ok c
             | None => Raise (AttributeError "class_to_idx")
             end;
  let bundle : Dict :=
    [ ("pretrained_model", VStr arch);
      ("input_size", VInt input_size);
      ("output_size", VInt output_size);
      ("learning_rate", VFloat learning_rate);
      ("hidden_units", VInt hidden_units);
      ("classifier", VModule (classifier model));
      ("epochs", VInt epochs);
      ("state_dict", VStateDict (state_dict model));
      ("class_to_idx", VClassToIdx c2i);
      ("optimizer", VOptimizer (optimizer_state_dict optimizer)) ] in
  Ok (model, torch_save bundle file_path fs).

(** ** The driver *)

(** The namespace [parse_args] returns. *)
Record Args := mkArgs {
  data_dir : string;
  save_dir : string;
  arch : string;
  learning_rate : scalar;
  hidden_units : Z;
  epochs : Z;
  gpu : bool
}.

(** Line 18: the values argparse accepts for [--arch]. *)
Definition arch_choices : list string := ["vgg16"; "densenet121"].

(** Of the work of [parse_args] the embedding keeps the validation of
    [--arch] against its [choices]; [given] holds the command line's
    values after conversion and defaulting. *)
Definition parse_args (given : Args) : Result Args :=
  if existsb (String.eqb (arch given)) arch_choices then Ok given
  else Raise (ArgumentError "--arch").

(** The session [main] hands to [train_model]: the assembled model and
    the optimizer of line 156, [optim.Adam(model.classifier.parameters(),
    lr=args.learning_rate)]. *)
Definition initial_session (model : Model) (learning_rate : scalar) : Session :=
  mkSession model (optim_Adam (classifier_parameters model) learning_rate) true 0 [].

(** [main()], from the parsed arguments on.  The datasets, their loaders,
    the loss [nn.NLLLoss()] and the machine are what the surroundings
    provide. *)
Definition main (cuda_available : bool) (given : Args)
    (image_datasets : list ImageFolder) (dataloaders : list DataLoader)
    (nn_NLLLoss : list (list scalar) -> list Z -> scalar) (fs : Files)
  : Result (Session * Files) :=
  try args <- parse_args given;
  try loaded <- load_model cuda_available (arch args) (hidden_units args) (gpu args);
  let '(model, device, num_in_features) := loaded in
  let criterion := nn_NLLLoss in
  try trainloader <- getitem dataloaders 0;
  try validateloader <- getitem dataloaders 1;
  match train_model cuda_available (epochs args) trainloader validateloader device
                    criterion (initial_session model (learning_rate args))
  with
  | (Raise e, _) => Raise e
  | (Ok _, s) =>
      let file_path := save_dir args in
      let output_size := 102 in
      try saved <- save_checkpoint file_path (the_model s) image_datasets (epochs args)
                     (the_optimizer s) (learning_rate args) num_in_features
                     output_size (arch args) (hidden_units args) fs;
      Ok (set_model (fst saved) s, snd saved)
  end.

(** ** Loading a checkpoint *)

(** [d[key]] at the type the reader expects. *)
Definition get_str (key : string) (d : Dict) : Result string :=
  match lookup key d with Some (VStr v) => Ok v | _ => Raise (KeyError key) end.

Definition get_int (key : string) (d : Dict) : Result Z :=
  match lookup key d with Some (VInt v) => Ok v | _ => Raise (KeyError key) end.

Definition get_float (key : string) (d : Dict) : Result scalar :=
  match lookup key d with Some (VFloat v) => Ok v | _ => Raise (KeyError key) end.

Definition get_state_dict (key : string) (d : Dict) : Result (list (ParamPath * tensor)) :=
  match lookup key d with Some (VStateDict v) => Ok v | _ => Raise (KeyError key) end.

Definition get_class_to_idx (key : string) (d : Dict) : Result (list (string * Z)) :=
  match lookup key d with Some (VClassToIdx v) => Ok v | _ => Raise (KeyError key) end.

Definition get_optimizer (key : string) (d : Dict) : Result OptimizerState :=
  match lookup key d with Some (VOptimizer v) => Ok v | _ => Raise (KeyError key) end.

(** [torch.load(path)] *)
Definition torch_load (path : string) (fs : Files) : Result Dict :=
  match lookup path fs with
  | Some d => Ok d
  | None => Raise (FileNotFoundError path)
  end.

Fixpoint lookup_path {V : Type} (p : ParamPath) (l : list (ParamPath * V)) : option V :=
  match l with
  | [] => None
  | (q, v) :: rest => if ParamPath_eqb q p then Some v else lookup_path p rest
  end.

Definition paths_eqb (a b : list ParamPath) : bool :=
  (Nat.eqb (List.length a) (List.length b)) &&
  forallb (fun pq => ParamPath_eqb (fst pq) (snd pq)) (combine a b).

(** [model.load_state_dict(sd)]: the keys must be the model's own; every
    parameter takes the stored value of its name. *)
Definition load_state_dict (sd : list (ParamPath * tensor)) (m : Model) : Result Model :=
  if paths_eqb (map fst sd) (map fst (named_parameters m)) then
    let restore (mk : string -> ParamPath) (np : string * Param) :=
      (fst np, match lookup_path (mk (fst np)) sd with
               | Some t => set_data t (snd np)
               | None => snd np
               end) in
    Ok (set_classifier_parameters
          (map (restore InClassifier) (parameters (classifier m)))
          (set_features (map (restore InFeatures) (features m)) m))
  else Raise (RuntimeError StateDictMismatch).

(** [optimizer.load_state_dict(st)]: the stored group must name as many
    parameters as the optimizer references. *)
Definition optimizer_load_state_dict (st : OptimizerState) (o : Optimizer) : Result Optimizer :=
  if Nat.eqb (List.length (os_params st)) (List.length (param_group o))
  then Ok (mkOptimizer (param_group o) (os_lr st) (os_state st))
  else Raise (RuntimeError StateDictMismatch).

(** Modelled from the spec: the Load contract of the Checkpoint Codec (the
    repository has the writer only).  The model is rebuilt through
    [load_model] from the stored architecture name and [hidden_units], its
    parameters are loaded from the stored state, [class_to_idx] is
    attached, and an optimizer over the head is primed with the stored
    optimizer state. *)
Definition load_checkpoint (cuda_available : bool) (file_path : string) (gpu : bool)
    (fs : Files) : Result (Model * Optimizer) :=
  try bundle <- torch_load file_path fs;
  try arch <- get_str "pretrained_model" bundle;
  try hidden_units <- get_int "hidden_units" bundle;
  try learning_rate <- get_float "learning_rate" bundle;
  try sd <- get_state_dict "state_dict" bundle;
  try c2i <- get_class_to_idx "class_to_idx" bundle;
  try ost <- get_optimizer "optimizer" bundle;
  try loaded <- load_model cuda_available arch hidden_units gpu;
  let '(model, _, _) := loaded in
  try model <- load_state_dict sd model;
  let model := set_class_to_idx c2i model in
  let optimizer := optim_Adam (classifier_parameters model) learning_rate in
  try optimizer <- optimizer_load_state_dict ost optimizer;
  Ok (model, optimizer).

End Checkpoint.

(** ** A small implementation of the interfaces

    Integers for numbers and tensors; used to run the definitions. *)

Module Toy.

#[export] Instance numeric : Numeric := {|
  scalar := Z;
  tensor := Z;
  images := Z;
  of_int := fun z => z;
  fadd := Z.add;
  fdiv := Z.div;
  fexp := fun z => z;
  fltb := Z.ltb;
  tensor_add := Z.add
|}.

Definition weight (t : Z) : Param := mkParam t true None.

Definition vgg16 : Model :=
  mkModel [("0.weight", weight 3); ("0.bias", weight 4)]
          (mkSequential [("0", Linear 25088 4096); ("1", ReLU); ("2", Dropout);
                         ("3", Linear 4096 1000)]
                        [("0.weight", weight 5); ("0.bias", weight 6);
                         ("3.weight", weight 7); ("3.bias", weight 8)])
          true cpu None.

Definition densenet121 : Model :=
  mkModel [("conv0.weight", weight 1); ("norm0.weight", weight 2)]
          (mkSequential [("", Linear 1024 1000)]
                        [("weight", weight 9); ("bias", weight 10)])
          true cpu None.

Definition sum_data (ps : list (string * Param)) : Z :=
  fold_left Z.add (map (fun np => data (snd np)) ps) 0.

#[export] Instance torch : Torch := {|
  models_vgg16 := vgg16;
  models_densenet121 := densenet121;
  init_weight := fun _ i o => i + o;
  init_bias := fun _ o => o;
  forward := fun m x =>
    [[x; sum_data (parameters (classifier m)); if training m then 1 else 0]];
  backward_grad := fun _ _ x _ _ => x;
  adam_state := nat;
  adam := fun rate st d g =>
    (S (match st with Some n => n | None => O end), d - rate * g)
|}.

Definition nll (logps : list (list Z)) (labels : list Z) : Z :=
  fold_left Z.add (map (fun row => nth 0 row 0) logps) 0 + Z.of_nat (List.length labels).

Definition loader (n : nat) : DataLoader :=
  mkDataLoader n (fun pass i => (Z.of_nat (pass + i), [Z.of_nat i mod 3])).

Definition datasets : list ImageFolder :=
  [mkImageFolder [("rose", 0); ("tulip", 1)]; mkImageFolder []; mkImageFolder []].

Definition rate : scalar := 1.

(** The model and the session [main] would train for "vgg16" with four
    hidden units. *)
Definition model : Model :=
  match load_model false "vgg16" 4 false with
  | Ok (m, _, _) => m
  | Raise _ => vgg16
  end.

Definition session : Session := initial_session model rate.

Definition args (name : string) (n_epochs : Z) : Args :=
  mkArgs "flowers" "train_checkpoint.pth" name rate 4 n_epochs false.

Definition loaders : list DataLoader := [loader 6; loader 1; loader 1].

(** The session and the files a run of [main] ends with. *)
Definition trained : Session * Files :=
  Eval vm_compute in
    match main false (args "vgg16" 1) datasets loaders nll [] with
    | Ok r => r
    | Raise _ => (session, [])
    end.

End Toy.

(** ** Vocabulary of the statements *)

Section AssemblySpec.
Context {N : Numeric} {T : Torch}.

(** The head for widths [i] and [h]: six named layers, and the six
    parameters of its three linear layers, all of them trainable. *)
Definition head_layers (i h : Z) : list (string * Layer) :=
  [ ("fc1", Linear i h); ("relu1", ReLU);
    ("fc2", Linear h h); ("relu2", ReLU);
    ("fc3", Linear h 102); ("output", LogSoftmax 1) ].

Definition head_parameters (i h : Z) : list (string * Param) :=
  [ ("fc1.weight", mkParam (init_weight "fc1" i h) true None);
    ("fc1.bias", mkParam (init_bias "fc1" h) true None);
    ("fc2.weight", mkParam (init_weight "fc2" h h) true None);
    ("fc2.bias", mkParam (init_bias "fc2" h) true None);
    ("fc3.weight", mkParam (init_weight "fc3" h 102) true None);
    ("fc3.bias", mkParam (init_bias "fc3" 102) true None) ].

(** The backbone and feature width [load_model] picks for a name. *)
Definition backbone_of (arch : string) : Model * Z :=
  if String.eqb arch "vgg16" then (models_vgg16, 25088)
  else (models_densenet121, 1024).

(** What [load_model] returns when nothing raises. *)
Definition assembled (arch : string) (hidden_units : Z) (d : Device) : Model :=
  set_device d
    (set_classifier
       (mkSequential (head_layers (snd (backbone_of arch)) hidden_units)
                     (head_parameters (snd (backbone_of arch)) hidden_units))
       (freeze (fst (backbone_of arch)))).

End AssemblySpec.

(** The effect of the pieces of the loop on the session, and the shape of
    the log a run leaves. *)
Section TraceSpec.
Context {N : Numeric} {T : Torch}.

Definition add_log (es : list Event) (s : Session) : Session :=
  mkSession (the_model s) (the_optimizer s) (grad_enabled s) (passes s) (log s ++ es).

(** Lines 72-76 on the model and the optimizer. *)
Definition after_step (criterion : list (list scalar) -> list Z -> scalar)
    (b : images * list Z) (s : Session) : Session :=
  let m1 := zero_grad (the_optimizer s) (the_model s) in
  let m2 := loss_backward criterion (fst b) (snd b) m1 in
  let om := optimizer_step (the_optimizer s) m2 in
  mkSession (snd om) (fst om) (grad_enabled s) (passes s) (log s).

(** The loss of line 74. *)
Definition step_loss (criterion : list (list scalar) -> list Z -> scalar)
    (b : images * list Z) (s : Session) : scalar :=
  criterion (forward (zero_grad (the_optimizer s) (the_model s)) (fst b)) (snd b).

(** Loss and top-1 accuracy of one validation batch under model [m]. *)
Definition val_result (criterion : list (list scalar) -> list Z -> scalar)
    (m : Model) (b : images * list Z) : scalar * scalar :=
  (criterion (forward m (fst b)) (snd b), batch_accuracy (forward m (fst b)) (snd b)).

(** The calls of one pass over the validation source: batch after batch,
    model in evaluation mode, gradients off. *)
Definition val_events (vals : list (scalar * scalar)) : list Event :=
  map (fun jv => ValForward (fst jv) false false (fst (snd jv)) (snd (snd jv)))
      (enumerate vals).

(** Sum in the order the loops accumulate, from Python's [0]. *)
Definition total (xs : list scalar) : scalar := fold_left fadd xs (of_int 0).

(** The report printed after a pass with results [vals]. *)
Definition metrics (epoch : nat) (epochs : Z) (running_loss : scalar)
    (vals : list (scalar * scalar)) : Report :=
  mkReport (Z.of_nat epoch + 1) epochs
           (fdiv running_loss (of_int 5))
           (fdiv (total (map fst vals)) (of_int (Z.of_nat (List.length vals))))
           (fdiv (total (map snd vals)) (of_int (Z.of_nat (List.length vals)))).

Definition val_results (criterion : list (list scalar) -> list Z -> scalar)
    (validateloader : DataLoader) (s : Session) : list (scalar * scalar) :=
  map (val_result criterion (set_training false (the_model s)))
      (batches_of validateloader (passes s)).

(** The session after a validation pass that printed its report. *)
Definition after_validation (criterion : list (list scalar) -> list Z -> scalar)
    (validateloader : DataLoader) (epochs : Z) (epoch : nat) (running_loss : scalar)
    (s : Session) : Session :=
  let vals := val_results criterion validateloader s in
  mkSession (set_training true (the_model s)) (the_optimizer s) (grad_enabled s)
            (S (passes s))
            (log s ++ val_events vals ++ [Print (Metrics (metrics epoch epochs running_loss vals))]).

(** The session after a validation pass over an empty source: the
    division for the report raised, the model stays in evaluation mode. *)
Definition after_failed_validation (s : Session) : Session :=
  mkSession (set_training false (the_model s)) (the_optimizer s) (grad_enabled s)
            (S (passes s)) (log s).

(** [Steps m E locals schedule events outcome]: running the loop body for
    the (epoch, batch) positions of [schedule], from the values [locals] of
    [steps] and [running_loss], with a validation source of [m] batches,
    logs [events] and ends with [outcome]. *)
Inductive Steps (m : nat) (E : Z)
  : Z * scalar -> list (nat * nat) -> list Event -> Result (Z * scalar) -> Prop :=
| Steps_done locals :
    Steps m E locals [] [] (Ok locals)
| Steps_train steps running_loss e i schedule loss events outcome :
    (steps + 1) mod 5 <> 0 ->
    Steps m E (steps + 1, fadd running_loss loss) schedule events outcome ->
    Steps m E (steps, running_loss) ((e, i) :: schedule)
          (TrainStep e i (steps + 1) loss :: events) outcome
| Steps_validate steps running_loss e i schedule loss vals events outcome :
    (steps + 1) mod 5 = 0 ->
    m <> 0%nat ->
    List.length vals = m ->
    Steps m E (steps + 1, of_int 0) schedule events outcome ->
    Steps m E (steps, running_loss) ((e, i) :: schedule)
          (TrainStep e i (steps + 1) loss :: Validation e i (steps + 1) ::
           val_events vals ++
           Print (Metrics (metrics e E (fadd running_loss loss) vals)) :: events)
          outcome
| Steps_raise steps running_loss e i schedule loss :
    (steps + 1) mod 5 = 0 ->
    m = 0%nat ->
    Steps m E (steps, running_loss) ((e, i) :: schedule)
          [TrainStep e i (steps + 1) loss; Validation e i (steps + 1)]
          (Raise ZeroDivisionError).

(** The positions the loops visit: [n] batches in each of [k] epochs. *)
Definition schedule (k n : nat) : list (nat * nat) :=
  flat_map (fun e => map (fun i => (e, i)) (seq 0 n)) (seq 0 k).

(** Readings of a log. *)
Definition steps_of (events : list Event) : list (nat * nat * Z) :=
  flat_map (fun ev => match ev with
                      | TrainStep e i st _ => [(e, i, st)]
                      | _ => []
                      end) events.

Definition validations_of (events : list Event) : list (nat * nat * Z) :=
  flat_map (fun ev => match ev with
                      | Validation e i st => [(e, i, st)]
                      | _ => []
                      end) events.

Definition step_losses (events : list Event) : list scalar :=
  flat_map (fun ev => match ev with
                      | TrainStep _ _ _ loss => [loss]
                      | _ => []
                      end) events.

Definition reports (events : list Event) : list Report :=
  flat_map (fun ev => match ev with
                      | Print (Metrics r) => [r]
                      | _ => []
                      end) events.

(** The batches (counted from 0, with the step number) after which a
    validation was entered during epoch [epoch]. *)
Definition triggers_in_epoch (epoch : nat) (events : list Event) : list (nat * Z) :=
  map (fun x => (snd (fst x), snd x))
      (filter (fun x => Nat.eqb (fst (fst x)) epoch) (validations_of events)).

(** Consecutive groups of five; what is left over at the end is dropped. *)
Fixpoint chunks5 {A} (l : list A) : list (list A) :=
  match l with
  | a :: b :: c :: d :: e :: rest => [a; b; c; d; e] :: chunks5 rest
  | _ => []
  end.

(** The positions of a schedule with the value of [steps] after each. *)
Fixpoint numbered (steps : Z) (sch : list (nat * nat)) : list (nat * nat * Z) :=
  match sch with
  | [] => []
  | (e, i) :: rest => (e, i, steps + 1) :: numbered (steps + 1) rest
  end.

(** A step whose number is a multiple of [print_every = 5]. *)
Definition triggers (x : nat * nat * Z) : bool := snd x mod 5 =? 0.

(** [running_loss / print_every] for the losses [c] of five steps. *)
Definition average5 (c : list scalar) : scalar := fdiv (total c) (of_int 5).

(** The steps of epoch [e] when every epoch has [n] batches: batch [i] is
    step [e*n + i + 1] of the run. *)
Definition row (n e : nat) : list (nat * nat * Z) :=
  map (fun i => (e, i, Z.of_nat (e * n + i) + 1)) (seq 0 n).

(** Steps of epoch [e0]. *)
Definition of_epoch (e0 : nat) (x : nat * nat * Z) : bool := Nat.eqb (fst (fst x)) e0.

(** The model calls a log starts with, what follows them, and the report
    that follows them if one does. *)
Fixpoint leading_forwards (events : list Event) : list Event :=
  match events with
  | ValForward j tm gm l a :: rest => ValForward j tm gm l a :: leading_forwards rest
  | _ => []
  end.

Fixpoint after_forwards (events : list Event) : list Event :=
  match events with
  | ValForward _ _ _ _ _ :: rest => after_forwards rest
  | _ => events
  end.

Definition next_report (events : list Event) : option Report :=
  match after_forwards events with
  | Print (Metrics r) :: _ => Some r
  | _ => None
  end.

(** A validation as the log shows it: the epoch it was entered in, the
    model calls made, and the report printed after them. *)
Record Pass := mkPass {
  pass_epoch : nat;
  pass_forwards : list Event;
  pass_report : option Report
}.

(** The validations of a log, in order. *)
Fixpoint passes_of (events : list Event) : list Pass :=
  match events with
  | [] => []
  | Validation e _ _ :: rest =>
      mkPass e (leading_forwards rest) (next_report rest) :: passes_of rest
  | _ :: rest => passes_of rest
  end.

(** A validation that went once through a source of [m] batches, in
    evaluation mode and without gradients, and printed the averages of
    what it computed. *)
Definition full_pass (m : nat) (E : Z) (p : Pass) : Prop :=
  exists vals running_loss,
    List.length vals = m /\
    pass_forwards p = val_events vals /\
    pass_report p = Some (metrics (pass_epoch p) E running_loss vals).

(** Names and [requires_grad] flags of a parameter list. *)
Definition skeleton (ps : list (string * Param)) : list (string * bool) :=
  map (fun np => (fst np, requires_grad (snd np))) ps.

(** Paths into the classifier head. *)
Definition is_head_path (p : ParamPath) : bool :=
  match p with
  | InClassifier _ => true
  | InFeatures _ => false
  end.

(** A parameter [backward] gives no gradient to. *)
Definition frozen (np : string * Param) : Prop := requires_grad (snd np) = false.

(** What training leaves alone in a model: everything but the values and
    gradient slots of the head's parameters, and the mode. *)
Definition same_frame (m0 m : Model) : Prop :=
  features m = features m0 /\
  layers (classifier m) = layers (classifier m0) /\
  skeleton (parameters (classifier m)) = skeleton (parameters (classifier m0)) /\
  device m = device m0 /\
  class_to_idx m = class_to_idx m0.

(** The invariant of a training run that started from model [m0] and
    optimizer [o0]. *)
Definition trained_from (m0 : Model) (o0 : Optimizer) (m : Model) (o : Optimizer) : Prop :=
  same_frame m0 m /\
  param_group o = param_group o0 /\
  lr o = lr o0 /\
  List.length (state o) = List.length (state o0).

End TraceSpec.

Section PreservationSpec.
Context {N : Numeric} {T : Torch}.

(** A property of the model and the optimizer that every command of the
    training loop keeps, whether the command returns or raises. *)
Variable P : Model -> Optimizer -> Prop.

Definition holds (s : Session) : Prop := P (the_model s) (the_optimizer s).

Definition preserves {A} (c : M A) : Prop := forall s, holds s -> holds (snd (c s)).

End PreservationSpec.


(** Vocabulary of the further properties. *)
Section FurtherSpec.
Context {N : Numeric} {T : Torch}.

(** The first thing that goes wrong in a run of [main] over the train
    source [trainloader] and the validation source [validateloader], if
    anything does, in the order the script reaches it. *)
Definition first_failure (cuda_available : bool) (given : Args)
    (trainloader validateloader : DataLoader) : option Exn :=
  if negb (existsb (String.eqb (arch given)) arch_choices)
  then Some (ArgumentError "--arch")
  else if hidden_units given <? 0 then Some (RuntimeError NegativeDimension)
  else if gpu given && negb cuda_available then Some (RuntimeError NoCudaDevice)
  else if Nat.eqb (num_batches validateloader) 0 &&
          (5 <=? Z.of_nat (Z.to_nat (epochs given) * num_batches trainloader))
  then Some ZeroDivisionError
  else None.

(** A command that leaves the gradient mode as it found it, whether it
    returns or raises. *)
Definition keeps_grad_mode {A} (c : M A) : Prop :=
  forall s, grad_enabled (snd (c s)) = grad_enabled s.

(** The validation batches the model was called on, in order. *)
Definition val_batches_of (events : list Event) : list nat :=
  flat_map (fun ev => match ev with
                      | ValForward j _ _ _ _ => [j]
                      | _ => []
                      end) events.

End FurtherSpec.

(** * Properties *)

(** ** Model assembly *)

Section AssemblyFacts.
Context {N : Numeric} {T : Torch}.

Lemma nn_Linear_ok (name : string) (i o : Z) :
  0 <= i -> 0 <= o ->
  nn_Linear name i o =
  Ok (name, Linear i o,
      [ ((name ++ ".weight")%string, mkParam (init_weight name i o) true None);
        ((name ++ ".bias")%string, mkParam (init_bias name o) true None) ]).
Proof.
  intros Hi Ho. unfold nn_Linear.
  destruct (i <? 0) eqn:Ei; [apply Z.ltb_lt in Ei; lia|].
  destruct (o <? 0) eqn:Eo; [apply Z.ltb_lt in Eo; lia|].
  reflexivity.
Qed.

Lemma nn_Linear_negative (name : string) (i o : Z) :
  i < 0 \/ o < 0 -> nn_Linear name i o = Raise (RuntimeError NegativeDimension).
Proof.
  intros H. unfold nn_Linear.
  destruct (i <? 0) eqn:Ei; [reflexivity|].
  destruct (o <? 0) eqn:Eo; [reflexivity|].
  apply Z.ltb_ge in Ei. apply Z.ltb_ge in Eo. lia.
Qed.

Lemma build_classifier_ok (i h : Z) :
  0 <= i -> 0 <= h ->
  build_classifier i h = Ok (mkSequential (head_layers i h) (head_parameters i h)).
Proof.
  intros Hi Hh. unfold build_classifier.
  rewrite !nn_Linear_ok by lia. reflexivity.
Qed.

Lemma build_classifier_negative (i h : Z) :
  0 <= i -> h < 0 -> build_classifier i h = Raise (RuntimeError NegativeDimension).
Proof.
  intros Hi Hh. unfold build_classifier.
  rewrite (nn_Linear_negative "fc1") by lia. reflexivity.
Qed.

Lemma backbone_width_nonneg (arch : string) : 0 <= snd (backbone_of arch).
Proof. unfold backbone_of. destruct (String.eqb arch "vgg16"); simpl; lia. Qed.

Lemma load_model_unfold (env : bool) (arch : string) (h : Z) (gpu : bool) :
  load_model env arch h gpu =
  rbind (build_classifier (snd (backbone_of arch)) h) (fun c =>
  rbind (to_device env (set_device (if gpu then cuda else cpu)
                          (set_classifier c (freeze (fst (backbone_of arch)))))
                   (if gpu then cuda else cpu)) (fun m =>
  Ok (m, if gpu then cuda else cpu, snd (backbone_of arch)))).
Proof.
  unfold load_model, backbone_of.
  destruct (String.eqb arch "vgg16"); reflexivity.
Qed.

Lemma load_model_ok (env : bool) (arch : string) (h : Z) (gpu : bool) :
  0 <= h -> (gpu = true -> env = true) ->
  load_model env arch h gpu =
  Ok (assembled arch h (if gpu then cuda else cpu),
      if gpu then cuda else cpu, snd (backbone_of arch)).
Proof.
  intros Hh Hdev. rewrite load_model_unfold.
  rewrite build_classifier_ok by (auto using backbone_width_nonneg).
  simpl. destruct gpu; simpl.
  - rewrite Hdev by reflexivity. reflexivity.
  - reflexivity.
Qed.

Lemma load_model_inv (env : bool) (arch : string) (h : Z) (gpu : bool) r :
  load_model env arch h gpu = Ok r ->
  0 <= h /\ (gpu = true -> env = true) /\
  r = (assembled arch h (if gpu then cuda else cpu),
       if gpu then cuda else cpu, snd (backbone_of arch)).
Proof.
  intros H.
  destruct (Z_lt_le_dec h 0) as [Hneg|Hpos].
  - rewrite load_model_unfold, build_classifier_negative in H
      by (auto using backbone_width_nonneg). discriminate.
  - assert (Hdev : gpu = true -> env = true).
    { intros ->. destruct env; [reflexivity|].
      rewrite load_model_unfold, build_classifier_ok in H
        by (auto using backbone_width_nonneg).
      simpl in H. discriminate. }
    rewrite load_model_ok in H by assumption.
    inversion H. auto.
Qed.

End AssemblyFacts.

(** C4: for positive widths the head builder (lines 44-51 of [load_model])
    succeeds and yields exactly linear(i->h), relu, linear(h->h), relu,
    linear(h->102), log-softmax, in this order and under the names fc1,
    relu1, fc2, relu2, fc3, output.  The layers are the same for any two
    implementations of the tensor library, that is, whatever the initial
    values of the parameters; and this is the head [load_model] attaches,
    with [i] the feature width it returns. *)
Theorem classifier_head_topology (N : Numeric) (T1 T2 : Torch) (i h : Z) :
  0 < i -> 0 < h ->
  exists c1 c2,
    @build_classifier N T1 i h = Ok c1 /\
    @build_classifier N T2 i h = Ok c2 /\
    layers c1 = [ ("fc1", Linear i h); ("relu1", ReLU);
                  ("fc2", Linear h h); ("relu2", ReLU);
                  ("fc3", Linear h 102); ("output", LogSoftmax 1) ] /\
    layers c2 = layers c1 /\
    map fst (parameters c1) =
      [ "fc1.weight"; "fc1.bias"; "fc2.weight"; "fc2.bias"; "fc3.weight"; "fc3.bias" ] /\
    (forall env arch gpu m d width,
        @load_model N T1 env arch h gpu = Ok (m, d, width) ->
        layers (classifier m) =
          [ ("fc1", Linear width h); ("relu1", ReLU);
            ("fc2", Linear h h); ("relu2", ReLU);
            ("fc3", Linear h 102); ("output", LogSoftmax 1) ]).
Proof.
  intros Hi Hh.
  exists (mkSequential (head_layers i h) (@head_parameters N T1 i h)).
  exists (mkSequential (head_layers i h) (@head_parameters N T2 i h)).
  repeat split; try (apply build_classifier_ok; lia).
  intros env arch gpu m d width H.
  apply load_model_inv in H. destruct H as (_ & _ & H).
  inversion H; subst. reflexivity.
Qed.

Lemma classifier_head_topology_witness :
  exists c1 c2,
    build_classifier (T := Toy.torch) 1024 512 = Ok c1 /\
    build_classifier (T := Toy.torch) 1024 512 = Ok c2 /\
    layers c1 = [ ("fc1", Linear 1024 512); ("relu1", ReLU);
                  ("fc2", Linear 512 512); ("relu2", ReLU);
                  ("fc3", Linear 512 102); ("output", LogSoftmax 1) ] /\
    layers c2 = layers c1 /\
    map fst (parameters c1) =
      [ "fc1.weight"; "fc1.bias"; "fc2.weight"; "fc2.bias"; "fc3.weight"; "fc3.bias" ] /\
    (forall env arch gpu m d width,
        load_model (T := Toy.torch) env arch 512 gpu = Ok (m, d, width) ->
        layers (classifier m) =
          [ ("fc1", Linear width 512); ("relu1", ReLU);
            ("fc2", Linear 512 512); ("relu2", ReLU);
            ("fc3", Linear 512 102); ("output", LogSoftmax 1) ]).
Proof.
  apply (@classifier_head_topology Toy.numeric Toy.torch Toy.torch 1024 512); lia.
Defined.

(** C7, as stated, fails: [load_model] has no branch that rejects a name.
    With the small implementation, "resnet18" gets a model. *)
Lemma unsupported_name_gets_a_backbone :
  ~ (forall arch : string,
        ~ In arch arch_choices ->
        exists e, load_model (T := Toy.torch) false arch 512 false = Raise e).
Proof.
  intros H. destruct (H "resnet18") as [e He].
  - simpl. intros [E|[E|[]]]; discriminate.
  - vm_compute in He. discriminate.
Qed.

(** C7, amended: a name outside the two supported ones is rejected by the
    argument parser (the [choices] of [--arch]); [load_model] itself never
    fails on the name: it treats every name other than "vgg16" as it
    treats "densenet121", returning that backbone and the feature width
    1024 whenever the head can be built and the device exists. *)
Theorem unsupported_name_is_densenet121 (N : Numeric) (T : Torch)
    (env : bool) (name : string) (h : Z) (gpu : bool) :
  ~ In name arch_choices ->
  (forall given, arch given = name -> parse_args given = Raise (ArgumentError "--arch")) /\
  load_model env name h gpu = load_model env "densenet121" h gpu /\
  (0 <= h -> (gpu = true -> env = true) ->
   exists m d, load_model env name h gpu = Ok (m, d, 1024) /\
               features m = features (freeze models_densenet121)).
Proof.
  intros Hname.
  assert (Hv : String.eqb name "vgg16" = false).
  { apply String.eqb_neq. intros ->. apply Hname. simpl. auto. }
  assert (Hd : String.eqb name "densenet121" = false).
  { apply String.eqb_neq. intros ->. apply Hname. simpl. auto. }
  split; [|split].
  - intros given <-. unfold parse_args. simpl.
    rewrite Hv, Hd. reflexivity.
  - unfold load_model. rewrite Hv. reflexivity.
  - intros Hh Hdev. rewrite load_model_ok by assumption.
    unfold assembled, backbone_of. rewrite Hv.
    eexists. eexists. split; reflexivity.
Qed.

Lemma unsupported_name_is_densenet121_witness :
  (forall given, arch given = "resnet18" ->
                 parse_args (N := Toy.numeric) given = Raise (ArgumentError "--arch")) /\
  load_model (T := Toy.torch) false "resnet18" 512 false =
    load_model (T := Toy.torch) false "densenet121" 512 false /\
  (0 <= 512 -> (false = true -> false = true) ->
   exists m d, load_model (T := Toy.torch) false "resnet18" 512 false = Ok (m, d, 1024) /\
               features m = features (freeze (models_densenet121 (Torch := Toy.torch)))).
Proof.
  apply (@unsupported_name_is_densenet121 Toy.numeric Toy.torch false "resnet18" 512 false).
  simpl. intros [E|[E|[]]]; discriminate.
Defined.

(** C8: with the accelerator requested on a machine that has none,
    [load_model] never returns a model; the device it binds is "cuda"
    whatever the machine, so there is no fall-back to the CPU, and for a
    head that can be built the exception is the one raised by moving the
    model to the missing device. *)
Theorem accelerator_missing (N : Numeric) (T : Torch) (name : string) (h : Z) :
  (forall r, load_model false name h true <> Ok r) /\
  (forall env m d width, load_model env name h true = Ok (m, d, width) ->
                         d = cuda /\ device m = cuda /\ env = true) /\
  (0 <= h -> load_model false name h true = Raise (RuntimeError NoCudaDevice)).
Proof.
  split; [|split].
  - intros r H. apply load_model_inv in H.
    destruct H as (_ & H & _). specialize (H eq_refl). discriminate.
  - intros env m d width H. apply load_model_inv in H.
    destruct H as (_ & Hdev & H). inversion H; subst. auto.
  - intros Hh. rewrite load_model_unfold.
    rewrite build_classifier_ok by (auto using backbone_width_nonneg).
    reflexivity.
Qed.

Lemma accelerator_missing_witness :
  load_model (T := Toy.torch) false "vgg16" 512 true = Raise (RuntimeError NoCudaDevice).
Proof.
  apply (@accelerator_missing Toy.numeric Toy.torch "vgg16" 512). lia.
Defined.

(** ** The training loop *)

Section LoopFacts.
Context {N : Numeric} {T : Torch}.
Variable cuda_available : bool.
Variable epochs : Z.
Variable trainloader validateloader : DataLoader.
Variable device : Device.
Variable criterion : list (list scalar) -> list Z -> scalar.
Hypothesis device_exists : device = cuda -> cuda_available = true.

Lemma to_device_ok {A} (x : A) : to_device cuda_available x device = Ok x.
Proof.
  unfold to_device. destruct device; [reflexivity|].
  rewrite device_exists; reflexivity.
Qed.

Lemma add_log_add_log (es es' : list Event) (s : Session) :
  add_log es' (add_log es s) = add_log (es ++ es') s.
Proof. unfold add_log. simpl. rewrite app_assoc. reflexivity. Qed.

Lemma add_log_nil (s : Session) : add_log [] s = s.
Proof. unfold add_log. rewrite app_nil_r. destruct s; reflexivity. Qed.

Lemma enumerate_from_length {A} (l : list A) (k : nat) :
  List.length (combine (seq k (List.length l)) l) = List.length l.
Proof. rewrite length_combine, length_seq. apply Nat.min_id. Qed.

(** The body of the validation loop only reads the model. *)
Lemma validate_batches_spec (l : list (nat * (images * list Z))) :
  forall (tl ac : scalar) (s : Session),
    for_each l (validate_batch cuda_available device criterion) (tl, ac) s =
    (Ok (fold_left fadd (map (fun ib => fst (val_result criterion (the_model s) (snd ib))) l) tl,
         fold_left fadd (map (fun ib => snd (val_result criterion (the_model s) (snd ib))) l) ac),
     add_log (map (fun ib => ValForward (fst ib) (training (the_model s)) (grad_enabled s)
                               (fst (val_result criterion (the_model s) (snd ib)))
                               (snd (val_result criterion (the_model s) (snd ib)))) l) s).
Proof.
  induction l as [|ib l IH]; intros tl ac s.
  - simpl. rewrite add_log_nil. reflexivity.
  - simpl for_each. unfold bind at 1. unfold validate_batch at 1.
    unfold bind, lift, gets, emit, modify, ret. rewrite !to_device_ok.
    fold (add_log [ValForward (fst ib) (training (the_model s)) (grad_enabled s)
                     (criterion (forward (the_model s) (fst (snd ib))) (snd (snd ib)))
                     (batch_accuracy (forward (the_model s) (fst (snd ib))) (snd (snd ib)))] s).
    rewrite IH. rewrite add_log_add_log. reflexivity.
Qed.

Lemma enumerate_map {A B} (f : A -> B) (l : list A) :
  enumerate (map f l) = map (fun ib => (fst ib, f (snd ib))) (enumerate l).
Proof.
  unfold enumerate. rewrite length_map. generalize 0%nat.
  induction l as [|a l IH]; intros k; simpl; [reflexivity|].
  rewrite IH. reflexivity.
Qed.

Lemma map_snd_enumerate {A} (l : list A) : map snd (enumerate l) = l.
Proof.
  unfold enumerate. generalize 0%nat.
  induction l as [|a l IH]; intros k; simpl; [reflexivity|].
  rewrite IH. reflexivity.
Qed.

Lemma map_enumerate_snd {A B} (f : A -> B) (l : list A) :
  map (fun ib => f (snd ib)) (enumerate l) = map f l.
Proof. rewrite <- (map_map snd f), map_snd_enumerate. reflexivity. Qed.

Lemma map_fst_enumerate {A} (l : list A) : map fst (enumerate l) = seq 0 (List.length l).
Proof.
  unfold enumerate. generalize 0%nat.
  induction l as [|a l IH]; intros k; simpl; [reflexivity|].
  rewrite IH. reflexivity.
Qed.

Lemma length_batches_of (l : DataLoader) (pass : nat) :
  List.length (batches_of l pass) = num_batches l.
Proof. unfold batches_of. rewrite length_map, length_seq. reflexivity. Qed.

Lemma length_val_results (s : Session) :
  List.length (val_results criterion validateloader s) = num_batches validateloader.
Proof. unfold val_results. rewrite length_map. apply length_batches_of. Qed.

Lemma py_div_ok (x : scalar) (n : Z) : n <> 0 -> py_div x n = Ok (fdiv x (of_int n)).
Proof. intros H. unfold py_div. apply Z.eqb_neq in H. rewrite H. reflexivity. Qed.

(** The validation loop on a session prepared by [model.eval()] and
    [torch.no_grad()]. *)
Lemma validate_pass_spec (s : Session) :
  with_no_grad
    (bind (iter validateloader) (fun batches =>
       for_each (enumerate batches) (validate_batch cuda_available device criterion)
                (of_int 0, of_int 0)))
    (set_model (set_training false (the_model s)) s) =
  (Ok (total (map fst (val_results criterion validateloader s)),
       total (map snd (val_results criterion validateloader s))),
   mkSession (set_training false (the_model s)) (the_optimizer s) (grad_enabled s)
             (S (passes s))
             (log s ++ val_events (val_results criterion validateloader s))).
Proof.
  unfold with_no_grad, bind, iter. simpl.
  rewrite validate_batches_spec. simpl.
  unfold total, val_events, val_results.
  rewrite enumerate_map, !map_map. simpl.
  rewrite (map_enumerate_snd
             (fun x => criterion (forward (set_training false (the_model s)) (fst x)) (snd x))).
  rewrite (map_enumerate_snd
             (fun x => batch_accuracy (forward (set_training false (the_model s)) (fst x)) (snd x))).
  reflexivity.
Qed.

Lemma validate_spec (e : nat) (running_loss : scalar) (s : Session) :
  num_batches validateloader <> 0%nat ->
  validate cuda_available epochs validateloader device criterion 5 e running_loss s =
  (Ok (of_int 0), after_validation criterion validateloader epochs e running_loss s).
Proof.
  intros Hm. unfold validate.
  unfold bind at 1. unfold modify at 1.
  unfold bind at 1. rewrite validate_pass_spec.
  unfold bind, lift, emit, modify, ret.
  rewrite !py_div_ok by (unfold len; lia).
  simpl. unfold after_validation, metrics, len.
  rewrite length_val_results, <- app_assoc. reflexivity.
Qed.

Lemma validate_empty (e : nat) (running_loss : scalar) (s : Session) :
  num_batches validateloader = 0%nat ->
  validate cuda_available epochs validateloader device criterion 5 e running_loss s =
  (Raise ZeroDivisionError, after_failed_validation s).
Proof.
  intros Hm. unfold validate.
  unfold bind at 1. unfold modify at 1.
  unfold bind at 1. rewrite validate_pass_spec.
  unfold bind, lift, emit, modify, ret.
  rewrite py_div_ok by lia.
  unfold py_div, len. rewrite Hm. simpl.
  unfold after_failed_validation, val_results, batches_of. rewrite Hm. simpl.
  rewrite app_nil_r. reflexivity.
Qed.


(** One iteration of the loop over the training batches. *)
Lemma train_batch_spec (e : nat) (i : nat) (b : images * list Z)
    (steps : Z) (running_loss : scalar) (s : Session) :
  train_batch cuda_available epochs validateloader device criterion 5 e (i, b)
              (steps, running_loss) s =
  if (steps + 1) mod 5 =? 0
  then bind (validate cuda_available epochs validateloader device criterion 5 e
                      (fadd running_loss (step_loss criterion b s)))
            (fun running_loss' => ret (steps + 1, running_loss'))
            (add_log [TrainStep e i (steps + 1) (step_loss criterion b s);
                      Validation e i (steps + 1)]
                     (after_step criterion b s))
  else (Ok (steps + 1, fadd running_loss (step_loss criterion b s)),
        add_log [TrainStep e i (steps + 1) (step_loss criterion b s)]
                (after_step criterion b s)).
Proof.
  unfold train_batch.
  unfold bind at 1. unfold lift at 1. rewrite to_device_ok.
  unfold bind at 1. unfold lift at 1. rewrite to_device_ok.
  unfold bind at 1. unfold modify at 1.
  unfold bind at 1. unfold gets at 1.
  unfold bind at 1. unfold modify at 1.
  unfold bind at 1. unfold modify at 1.
  unfold bind at 1. unfold emit at 1. unfold modify at 1.
  simpl fst. simpl snd.
  destruct ((steps + 1) mod 5 =? 0).
  - unfold bind at 1. unfold emit at 1. unfold modify at 1.
    unfold after_step, step_loss, add_log. simpl.
    rewrite <- app_assoc. reflexivity.
  - unfold after_step, step_loss, add_log, ret. simpl.
    reflexivity.
Qed.

Lemma Steps_app_ok (m : nat) (E : Z) locals sch1 ev1 locals' :
  Steps m E locals sch1 ev1 (Ok locals') ->
  forall sch2 ev2 outcome,
    Steps m E locals' sch2 ev2 outcome ->
    Steps m E locals (sch1 ++ sch2) (ev1 ++ ev2) outcome.
Proof.
  intros H. remember (Ok locals') as out eqn:Eout.
  induction H; intros sch2 ev2 outcome' Hrest.
  - inversion Eout; subst. exact Hrest.
  - simpl. apply Steps_train; auto.
  - simpl. rewrite <- app_assoc. simpl. apply Steps_validate; auto.
  - discriminate.
Qed.

Lemma Steps_app_raise (m : nat) (E : Z) locals sch1 ev1 x :
  Steps m E locals sch1 ev1 (Raise x) ->
  forall sch2, Steps m E locals (sch1 ++ sch2) ev1 (Raise x).
Proof.
  intros H. remember (Raise x) as out eqn:Eout.
  induction H; intros sch2.
  - discriminate.
  - simpl. apply Steps_train; auto.
  - simpl. apply Steps_validate; auto.
  - inversion Eout; subst. simpl. apply Steps_raise; auto.
Qed.

Lemma for_each_cons {A L} (x : A) (xs : list A) (body : A -> L -> M L) (locals : L)
    (s : Session) :
  for_each (x :: xs) body locals s =
  match body x locals s with
  | (Ok locals', s') => for_each xs body locals' s'
  | (Raise e, s') => (Raise e, s')
  end.
Proof. reflexivity. Qed.

(** The loop over the batches of one epoch follows [Steps]. *)
Lemma train_batches_steps (e : nat) (l : list (nat * (images * list Z))) :
  forall (steps : Z) (running_loss : scalar) (s : Session),
  exists events outcome s',
    for_each l (train_batch cuda_available epochs validateloader device criterion 5 e)
             (steps, running_loss) s = (outcome, s') /\
    log s' = log s ++ events /\
    Steps (num_batches validateloader) epochs (steps, running_loss)
          (map (fun ib => (e, fst ib)) l) events outcome.
Proof.
  induction l as [|[i b] l IH]; intros steps running_loss s.
  - exists [], (Ok (steps, running_loss)), s. simpl.
    rewrite app_nil_r. repeat split. constructor.
  - rewrite for_each_cons, train_batch_spec.
    destruct ((steps + 1) mod 5 =? 0) eqn:Etrig.
    + apply Z.eqb_eq in Etrig.
      destruct (Nat.eq_dec (num_batches validateloader) 0) as [Hm|Hm].
      * unfold bind at 1. rewrite validate_empty by assumption.
        eexists. eexists. eexists. split; [reflexivity|]. split.
        -- simpl. reflexivity.
        -- simpl. apply Steps_raise; assumption.
      * unfold bind at 1. rewrite validate_spec by assumption.
        unfold ret at 1.
        match goal with
        | |- context [for_each l _ ?loc ?s1] =>
            destruct (IH (fst loc) (snd loc) s1) as (events & outcome & s' & Hrun & Hlog & Hsteps)
        end.
        simpl fst in *. simpl snd in *.
        eexists. exists outcome, s'. split; [exact Hrun|]. split.
        -- rewrite Hlog. unfold after_validation, add_log. simpl.
           rewrite <- !app_assoc. simpl. reflexivity.
        -- simpl. apply Steps_validate; try assumption.
           apply length_val_results.
    + apply Z.eqb_neq in Etrig.
      match goal with
      | |- context [for_each l _ ?loc ?s1] =>
          destruct (IH (fst loc) (snd loc) s1) as (events & outcome & s' & Hrun & Hlog & Hsteps)
      end.
      simpl fst in *. simpl snd in *.
      eexists. exists outcome, s'. split; [exact Hrun|]. split.
      * rewrite Hlog. unfold add_log. simpl. rewrite <- app_assoc. reflexivity.
      * simpl. apply Steps_train; assumption.
Qed.


Lemma schedule_of_enumerate {A} (e : nat) (l : list A) :
  map (fun ib => (e, fst ib)) (enumerate l) = map (fun i => (e, i)) (seq 0 (List.length l)).
Proof. rewrite <- (map_map fst (fun i => (e, i))), map_fst_enumerate. reflexivity. Qed.

(** The loop over the epochs follows [Steps]. *)
Lemma train_epochs_steps (k : nat) :
  forall (a : nat) (locals : Z * scalar) (s : Session),
  exists events outcome s',
    for_each (seq a k)
             (train_epoch cuda_available epochs trainloader validateloader device
                          criterion 5)
             locals s = (outcome, s') /\
    log s' = log s ++ events /\
    Steps (num_batches validateloader) epochs locals
          (flat_map (fun e => map (fun i => (e, i)) (seq 0 (num_batches trainloader)))
                    (seq a k))
          events outcome.
Proof.
  induction k as [|k IH]; intros a locals s.
  - exists [], (Ok locals), s. simpl. rewrite app_nil_r. repeat split. constructor.
  - simpl seq. rewrite for_each_cons. unfold train_epoch at 1.
    unfold bind at 1. unfold iter at 1.
    destruct locals as [steps running_loss].
    match goal with
    | |- context [for_each ?l _ _ ?s1] =>
        destruct (train_batches_steps a l steps running_loss s1)
          as (ev1 & out1 & s1' & Hrun1 & Hlog1 & Hsteps1)
    end.
    rewrite Hrun1. simpl in Hlog1.
    rewrite schedule_of_enumerate, length_batches_of in Hsteps1.
    destruct out1 as [locals1|x].
    + destruct (IH (S a) locals1 s1') as (ev2 & out2 & s2 & Hrun2 & Hlog2 & Hsteps2).
      exists (ev1 ++ ev2), out2, s2. split; [exact Hrun2|]. split.
      * rewrite Hlog2, Hlog1, app_assoc. reflexivity.
      * simpl flat_map. eapply Steps_app_ok; eassumption.
    + exists ev1, (Raise x), s1'. split; [reflexivity|]. split; [exact Hlog1|].
      simpl flat_map. apply Steps_app_raise. exact Hsteps1.
Qed.

(** [train_model] follows [Steps] over the whole schedule, between its
    two messages; the second one is printed when nothing raised. *)
Lemma train_model_steps (s : Session) :
  exists events outcome s',
    Steps (num_batches validateloader) epochs (0, of_int 0)
          (schedule (Z.to_nat epochs) (num_batches trainloader)) events outcome /\
    train_model cuda_available epochs trainloader validateloader device criterion s =
      (match outcome with Ok _ => Ok tt | Raise x => Raise x end, s') /\
    log s' = log s ++ Print ModelIsTraining :: events ++
             match outcome with Ok _ => [Print ModelTrainedIn] | Raise _ => [] end.
Proof.
  unfold train_model, schedule, range. cbv zeta.
  unfold bind at 1. unfold emit at 1. unfold modify at 1.
  destruct (train_epochs_steps (Z.to_nat epochs) 0 (0, of_int 0)
              (add_log [Print ModelIsTraining] s))
    as (events & outcome & s' & Hrun & Hlog & Hsteps).
  unfold add_log in Hrun.
  simpl in Hlog.
  exists events, outcome.
  destruct outcome as [locals|x].
  - eexists. split; [exact Hsteps|]. split.
    + unfold bind at 1. rewrite Hrun. unfold bind, emit, modify, ret. reflexivity.
    + simpl. rewrite Hlog, <- !app_assoc. reflexivity.
  - exists s'. split; [exact Hsteps|]. split.
    + unfold bind at 1. rewrite Hrun. reflexivity.
    + rewrite Hlog, <- !app_assoc, app_nil_r. reflexivity.
Qed.

End LoopFacts.


Section StepsFacts.
Context {N : Numeric} {T : Torch}.

Lemma flat_map_map_nil {A B C} (f : B -> list C) (g : A -> B) (l : list A) :
  (forall a, f (g a) = []) -> flat_map f (map g l) = [].
Proof.
  intros H. induction l as [|a l IH]; simpl; [reflexivity|].
  rewrite H, IH. reflexivity.
Qed.

Lemma steps_of_val_events vals : steps_of (val_events vals) = [].
Proof. apply flat_map_map_nil. reflexivity. Qed.

Lemma validations_of_val_events vals : validations_of (val_events vals) = [].
Proof. apply flat_map_map_nil. reflexivity. Qed.

Lemma step_losses_val_events vals : step_losses (val_events vals) = [].
Proof. apply flat_map_map_nil. reflexivity. Qed.

Lemma reports_val_events vals : reports (val_events vals) = [].
Proof. apply flat_map_map_nil. reflexivity. Qed.

Lemma steps_of_app a b : steps_of (a ++ b) = steps_of a ++ steps_of b.
Proof. apply flat_map_app. Qed.

Lemma validations_of_app a b : validations_of (a ++ b) = validations_of a ++ validations_of b.
Proof. apply flat_map_app. Qed.

Lemma step_losses_app a b : step_losses (a ++ b) = step_losses a ++ step_losses b.
Proof. apply flat_map_app. Qed.

Lemma reports_app a b : reports (a ++ b) = reports a ++ reports b.
Proof. apply flat_map_app. Qed.

Lemma Steps_never_raises (m : nat) (E : Z) locals sch events outcome :
  m <> 0%nat -> Steps m E locals sch events outcome -> exists locals', outcome = Ok locals'.
Proof.
  intros Hm H. induction H; eauto. contradiction.
Qed.

Lemma Steps_steps_of (m : nat) (E : Z) locals sch events locals' :
  Steps m E locals sch events (Ok locals') ->
  steps_of events = numbered (fst locals) sch /\
  fst locals' = fst locals + Z.of_nat (List.length sch).
Proof.
  intros H. remember (Ok locals') as out eqn:Eout.
  induction H; simpl.
  - inversion Eout; subst. split; [reflexivity|lia].
  - destruct (IHSteps Eout) as [IH1 IH2]. simpl in *.
    rewrite IH1, IH2. split; [reflexivity|lia].
  - destruct (IHSteps Eout) as [IH1 IH2]. simpl in *.
    rewrite steps_of_app, steps_of_val_events. simpl.
    rewrite IH1, IH2. split; [reflexivity|lia].
  - discriminate.
Qed.

Lemma Steps_validations (m : nat) (E : Z) locals sch events outcome :
  Steps m E locals sch events outcome ->
  validations_of events = filter triggers (steps_of events).
Proof.
  intros H. induction H; simpl.
  - reflexivity.
  - unfold triggers at 1. simpl.
    apply Z.eqb_neq in H. rewrite H. exact IHSteps.
  - unfold triggers at 1. simpl.
    rewrite H, Z.eqb_refl.
    rewrite validations_of_app, steps_of_app, validations_of_val_events,
      steps_of_val_events. simpl. rewrite IHSteps. reflexivity.
  - unfold triggers. simpl. rewrite H, Z.eqb_refl. reflexivity.
Qed.

Lemma Steps_no_validation_source (E : Z) locals sch events outcome :
  Steps 0 E locals sch events outcome ->
  reports events = [] /\
  (0 <= fst locals < 5 ->
   (fst locals + Z.of_nat (List.length sch) < 5 ->
    exists locals', outcome = Ok locals') /\
   (5 <= fst locals + Z.of_nat (List.length sch) ->
    outcome = Raise ZeroDivisionError)).
Proof.
  intros H. induction H; simpl.
  - split; [reflexivity|]. intros Hst. split; [eauto|]. intros. lia.
  - destruct IHSteps as [IH1 IH2]. split; [exact IH1|].
    simpl in *. intros Hst.
    assert (Hnext : 0 <= steps + 1 < 5).
    { split; [lia|]. destruct (Z.eq_dec (steps + 1) 5) as [E5|]; [|lia].
      rewrite E5 in H. exfalso. apply H. reflexivity. }
    destruct (IH2 Hnext) as [IHok IHraise].
    split; intros Hlen; [apply IHok|apply IHraise]; lia.
  - contradiction.
  - split; [reflexivity|]. simpl. intros Hst. split; intros Hlen.
    + exfalso.
      assert (steps + 1 < 5) by lia.
      rewrite Z.mod_small in H by lia. lia.
    + reflexivity.
Qed.


Lemma chunks5_short {A} (l : list A) : (List.length l < 5)%nat -> chunks5 l = [].
Proof.
  intros H. do 5 (destruct l as [|? l]; [reflexivity|]). simpl in H. lia.
Qed.

Lemma chunks5_app {A} (c rest : list A) :
  List.length c = 5%nat -> chunks5 (c ++ rest) = c :: chunks5 rest.
Proof.
  intros H. do 5 (destruct c as [|? c]; [discriminate|]).
  destruct c; [reflexivity|discriminate].
Qed.

Lemma total_snoc (xs : list scalar) (x : scalar) : total (xs ++ [x]) = fadd (total xs) x.
Proof. unfold total. rewrite fold_left_app. reflexivity. Qed.

(** Every report averages the five step losses before it, and the
    reports partition the step losses into consecutive groups of five. *)
Lemma Steps_reports (m : nat) (E : Z) locals sch events outcome :
  m <> 0%nat ->
  Steps m E locals sch events outcome ->
  forall pending : list scalar,
    snd locals = total pending ->
    Z.of_nat (List.length pending) = fst locals mod 5 ->
    map train_loss (reports events) =
    map average5 (chunks5 (pending ++ step_losses events)).
Proof.
  intros Hm H. induction H; intros pending Hsum Hlen; simpl in *.
  - rewrite app_nil_r, chunks5_short; [reflexivity|].
    assert (fst locals mod 5 < 5) by (apply Z.mod_pos_bound; lia). lia.
  - rewrite (IHSteps (pending ++ [loss])).
    + rewrite <- app_assoc. reflexivity.
    + rewrite total_snoc, Hsum. reflexivity.
    + rewrite length_app. simpl. Z.div_mod_to_equations. lia.
  - rewrite reports_app, reports_val_events, step_losses_app, step_losses_val_events.
    simpl.
    rewrite (IHSteps []) by (try reflexivity; simpl; lia).
    assert (Hfive : List.length (pending ++ [loss]) = 5%nat).
    { rewrite length_app. simpl. Z.div_mod_to_equations. lia. }
    simpl.
    replace (pending ++ loss :: step_losses events)
      with ((pending ++ [loss]) ++ step_losses events)
      by (rewrite <- app_assoc; reflexivity).
    rewrite chunks5_app by exact Hfive.
    rewrite map_cons. unfold average5 at 2. rewrite total_snoc, Hsum. reflexivity.
  - contradiction.
Qed.

Lemma numbered_app (steps : Z) (a b : list (nat * nat)) :
  numbered steps (a ++ b) =
  numbered steps a ++ numbered (steps + Z.of_nat (List.length a)) b.
Proof.
  revert steps. induction a as [|[e i] a IH]; intros steps; simpl.
  - f_equal. lia.
  - rewrite IH. do 3 f_equal. lia.
Qed.

Lemma numbered_row (e : nat) (n : nat) :
  forall (b : nat) (base : Z),
    numbered (base + Z.of_nat b) (map (fun i => (e, i)) (seq b n)) =
    map (fun i => (e, i, base + Z.of_nat i + 1)) (seq b n).
Proof.
  induction n as [|n IH]; intros b base; simpl; [reflexivity|].
  f_equal.
  replace (base + Z.of_nat b + 1) with (base + Z.of_nat (S b)) by lia.
  apply IH.
Qed.

Lemma numbered_schedule_from (n k : nat) :
  forall a : nat,
    numbered (Z.of_nat (a * n))
             (flat_map (fun e => map (fun i => (e, i)) (seq 0 n)) (seq a k)) =
    flat_map (row n) (seq a k).
Proof.
  induction k as [|k IH]; intros a; simpl; [reflexivity|].
  rewrite numbered_app, length_map, length_seq.
  replace (Z.of_nat (a * n) + Z.of_nat n) with (Z.of_nat (S a * n)) by lia.
  rewrite IH. f_equal.
  replace (Z.of_nat (a * n)) with (Z.of_nat (a * n) + Z.of_nat 0) by lia.
  rewrite numbered_row. unfold row. apply map_ext. intros i.
  do 2 f_equal. lia.
Qed.

Lemma numbered_schedule (k n : nat) :
  numbered 0 (schedule k n) = flat_map (row n) (seq 0 k).
Proof. apply (numbered_schedule_from n k 0). Qed.

Lemma filter_row (n e0 e : nat) :
  filter (of_epoch e0) (row n e) = if Nat.eqb e e0 then row n e else [].
Proof.
  unfold row. generalize (seq 0 n). intros l.
  induction l as [|i l IH]; simpl.
  - destruct (Nat.eqb e e0); reflexivity.
  - unfold of_epoch at 1. simpl. rewrite IH.
    destruct (Nat.eqb e e0); reflexivity.
Qed.

Lemma filter_rows (n e0 k : nat) :
  forall a : nat,
    filter (of_epoch e0) (flat_map (row n) (seq a k)) =
    if (Nat.leb a e0 && Nat.ltb e0 (a + k))%bool then row n e0 else [].
Proof.
  induction k as [|k IH]; intros a.
  - cbn [seq flat_map filter].
    destruct (Nat.leb_spec a e0), (Nat.ltb_spec e0 (a + 0)); cbn; try reflexivity; lia.
  - cbn [seq flat_map]. rewrite filter_app, filter_row, IH.
    destruct (Nat.eqb_spec a e0) as [->|Hne];
      [destruct (Nat.leb_spec e0 e0), (Nat.ltb_spec e0 (e0 + S k)),
         (Nat.leb_spec (S e0) e0), (Nat.ltb_spec e0 (S e0 + k))
      |destruct (Nat.leb_spec a e0), (Nat.ltb_spec e0 (a + S k)),
         (Nat.leb_spec (S a) e0), (Nat.ltb_spec e0 (S a + k))];
      cbn [andb app]; rewrite ?app_nil_r; try reflexivity; lia.
Qed.

Lemma filter_comm {A} (p q : A -> bool) (l : list A) :
  filter p (filter q l) = filter q (filter p l).
Proof.
  induction l as [|a l IH]; simpl; [reflexivity|].
  destruct (q a) eqn:Eq, (p a) eqn:Ep; simpl; rewrite ?Eq, ?Ep, IH; reflexivity.
Qed.


Lemma forwards_then (A : Type) (f : A -> nat) (g h : A -> scalar) (l : list A)
    (line : Line) (rest : list Event) :
  let evs := map (fun a => ValForward (f a) false false (g a) (h a)) l in
  leading_forwards (evs ++ Print line :: rest) = evs /\
  after_forwards (evs ++ Print line :: rest) = Print line :: rest /\
  passes_of (evs ++ Print line :: rest) = passes_of rest.
Proof.
  induction l as [|a l IH]; simpl.
  - repeat split.
  - destruct IH as (IH1 & IH2 & IH3). rewrite IH1, IH2, IH3. repeat split.
Qed.

Lemma passes_of_app_no_validation (a b : list Event) :
  validations_of a = [] -> passes_of (a ++ b) = passes_of b.
Proof.
  induction a as [|ev a IH]; simpl; intros H; [reflexivity|].
  destruct ev; simpl in H; try discriminate; auto.
Qed.

Lemma Steps_passes (m : nat) (E : Z) locals sch events outcome :
  m <> 0%nat ->
  Steps m E locals sch events outcome ->
  forall tail,
    passes_of tail = [] ->
    Forall (full_pass m E) (passes_of (events ++ tail)) /\
    List.length (passes_of (events ++ tail)) = List.length (validations_of events).
Proof.
  intros Hm H. induction H; intros tail Htail; simpl.
  - rewrite Htail. split; [constructor|reflexivity].
  - apply IHSteps. exact Htail.
  - destruct (IHSteps tail Htail) as [IH1 IH2].
    unfold val_events. rewrite <- app_assoc. simpl.
    destruct (forwards_then (fun jv => fst jv) (fun jv => fst (snd jv))
                (fun jv => snd (snd jv)) (enumerate vals)
                (Metrics (metrics e E (fadd running_loss loss) vals)) (events ++ tail))
      as (L1 & L2 & L3).
    cbv zeta in L1, L2, L3.
    unfold next_report. rewrite L1, L2, L3.
    rewrite validations_of_app.
    change (map (fun jv => ValForward (fst jv) false false (fst (snd jv)) (snd (snd jv)))
                (enumerate vals)) with (val_events vals).
    rewrite validations_of_val_events. simpl.
    split; [|f_equal; exact IH2].
    constructor; [|exact IH1].
    exists vals, (fadd running_loss loss). repeat split. assumption.
  - contradiction.
Qed.

Lemma length_chunks5 {A} (l : list A) : List.length (chunks5 l) = Nat.div (List.length l) 5.
Proof.
  remember (List.length l) as k eqn:Ek. revert l Ek.
  induction k as [k IH] using lt_wf_ind. intros l Ek.
  destruct l as [|a [|b [|c [|d [|e rest]]]]]; subst k; try reflexivity.
  cbn [chunks5 List.length].
  rewrite (IH (List.length rest)); [|simpl; lia|reflexivity].
  change (S (S (S (S (S (List.length rest)))))) with (5 + List.length rest)%nat.
  replace (5 + List.length rest)%nat with (1 * 5 + List.length rest)%nat by lia.
  rewrite Nat.div_add_l by lia. reflexivity.
Qed.

Lemma concat_chunks5 {A} (l : list A) :
  List.concat (chunks5 l) = firstn (5 * Nat.div (List.length l) 5) l.
Proof.
  remember (List.length l) as k eqn:Ek. revert l Ek.
  induction k as [k IH] using lt_wf_ind. intros l Ek.
  destruct l as [|a [|b [|c [|d [|e rest]]]]]; subst k; try reflexivity.
  cbn [chunks5 List.concat List.length].
  rewrite (IH (List.length rest)); [|simpl; lia|reflexivity].
  change (S (S (S (S (S (List.length rest)))))) with (5 + List.length rest)%nat.
  replace (5 + List.length rest)%nat with (1 * 5 + List.length rest)%nat by lia.
  rewrite Nat.div_add_l by lia.
  replace (5 * (1 + Nat.div (List.length rest) 5))%nat
    with (S (S (S (S (S (5 * Nat.div (List.length rest) 5)))))) by lia.
  reflexivity.
Qed.

Lemma length_numbered (steps : Z) (sch : list (nat * nat)) :
  List.length (numbered steps sch) = List.length sch.
Proof.
  revert steps. induction sch as [|[e i] sch IH]; intros steps; simpl; auto.
Qed.

Lemma length_schedule_from (n k : nat) :
  forall a : nat,
    List.length (flat_map (fun e => map (fun i => (e, i)) (seq 0 n)) (seq a k)) = (k * n)%nat.
Proof.
  induction k as [|k IH]; intros a; simpl; [reflexivity|].
  rewrite length_app, length_map, length_seq, IH. reflexivity.
Qed.

Lemma length_schedule (k n : nat) : List.length (schedule k n) = (k * n)%nat.
Proof. apply length_schedule_from. Qed.

Lemma length_step_losses (events : list Event) :
  List.length (step_losses events) = List.length (steps_of events).
Proof.
  induction events as [|ev events IH]; simpl; [reflexivity|].
  destruct ev; simpl; auto.
Qed.

End StepsFacts.

(** ** What training leaves unchanged *)

Section Preservation.
Context {N : Numeric} {T : Torch}.
Variable P : Model -> Optimizer -> Prop.

Local Abbreviation kept := (holds P).
Local Abbreviation keeps := (preserves P).

Lemma preserves_ret {A} (a : A) : keeps (ret a).
Proof. intros s H. exact H. Qed.

Lemma preserves_lift {A} (r : Result A) : keeps (lift r).
Proof. intros s H. exact H. Qed.

Lemma preserves_gets {A} (f : Session -> A) : keeps (gets f).
Proof. intros s H. exact H. Qed.

Lemma preserves_emit (e : Event) : keeps (emit e).
Proof. intros s H. exact H. Qed.

Lemma preserves_iter (l : DataLoader) : keeps (iter l).
Proof. intros s H. exact H. Qed.

Lemma preserves_bind {A B} (c : M A) (k : A -> M B) :
  keeps c -> (forall a, keeps (k a)) -> keeps (bind c k).
Proof.
  intros Hc Hk s H. unfold bind. specialize (Hc s H).
  destruct (c s) as [[a|e] s']; simpl in *.
  - apply Hk. exact Hc.
  - exact Hc.
Qed.

Lemma preserves_for_each {A L} (body : A -> L -> M L) (xs : list A) :
  (forall x l, keeps (body x l)) -> forall l, keeps (for_each xs body l).
Proof.
  intros Hbody. induction xs as [|x xs IH]; intros l; simpl.
  - apply preserves_ret.
  - apply preserves_bind; auto.
Qed.

Lemma preserves_with_no_grad {A} (c : M A) : keeps c -> keeps (with_no_grad c).
Proof.
  intros Hc s H. unfold with_no_grad.
  specialize (Hc (set_grad_enabled false s) H).
  destruct (c (set_grad_enabled false s)) as [r s']. exact Hc.
Qed.

Hypothesis P_mode : forall m o b, P m o -> P (set_training b m) o.
Hypothesis P_step :
  forall m o criterion x y,
    P m o ->
    P (snd (optimizer_step o (loss_backward criterion x y (zero_grad o m))))
      (fst (optimizer_step o (loss_backward criterion x y (zero_grad o m)))).

Variable cuda_available : bool.
Variable epochs : Z.
Variable trainloader validateloader : DataLoader.
Variable device : Device.
Variable criterion : list (list scalar) -> list Z -> scalar.

Lemma preserves_validate_batch ib acc :
  keeps (validate_batch cuda_available device criterion ib acc).
Proof.
  unfold validate_batch. destruct acc as [tl ac].
  repeat (apply preserves_bind; [|intros]);
    auto using preserves_lift, preserves_gets, preserves_emit, preserves_ret.
Qed.

Lemma preserves_validate print_every e running_loss :
  keeps (validate cuda_available epochs validateloader device criterion
                      print_every e running_loss).
Proof.
  unfold validate.
  apply preserves_bind; [intros s H; apply P_mode; exact H|intros _].
  apply preserves_bind.
  - apply preserves_with_no_grad. apply preserves_bind; [apply preserves_iter|intros].
    apply preserves_for_each. intros. apply preserves_validate_batch.
  - intros [tl ac].
    repeat (apply preserves_bind; [|intros]);
      auto using preserves_lift, preserves_emit, preserves_ret.
    intros s H; apply P_mode; exact H.
Qed.

Lemma preserves_train_batch print_every e ib locals :
  keeps (train_batch cuda_available epochs validateloader device criterion
                         print_every e ib locals).
Proof.
  unfold train_batch. destruct locals as [steps running_loss].
  apply preserves_bind; [apply preserves_lift|intros inputs].
  apply preserves_bind; [apply preserves_lift|intros labels].
  intros s H. unfold bind at 1. unfold modify at 1.
  unfold bind at 1. unfold gets at 1.
  unfold bind at 1. unfold modify at 1.
  unfold bind at 1. unfold modify at 1.
  match goal with
  | |- kept (snd (?c ?s1)) => apply (fun Hc : keeps c => Hc s1)
  end.
  - apply preserves_bind; [apply preserves_emit|intros _].
    destruct (_ =? 0).
    + apply preserves_bind; [apply preserves_emit|intros _].
      apply preserves_bind; [apply preserves_validate|intros].
      apply preserves_ret.
    + apply preserves_ret.
  - unfold holds. simpl. apply P_step. exact H.
Qed.

Lemma preserves_train_model :
  keeps (train_model cuda_available epochs trainloader validateloader device criterion).
Proof.
  unfold train_model.
  apply preserves_bind; [apply preserves_emit|intros _].
  apply preserves_bind.
  - apply preserves_for_each. intros e locals. unfold train_epoch.
    apply preserves_bind; [apply preserves_iter|intros].
    apply preserves_for_each. intros. apply preserves_train_batch.
  - intros. apply preserves_bind; [apply preserves_emit|intros].
    apply preserves_ret.
Qed.

End Preservation.

Section Frozen.
Context {N : Numeric} {T : Torch}.

Lemma same_frame_refl (m : Model) : same_frame m m.
Proof. repeat split. Qed.

Lemma same_frame_trans (m0 m1 m2 : Model) :
  same_frame m0 m1 -> same_frame m1 m2 -> same_frame m0 m2.
Proof.
  intros (A1 & A2 & A3 & A4 & A5) (B1 & B2 & B3 & B4 & B5).
  repeat split; congruence.
Qed.

Lemma skeleton_alter_named (f : Param -> Param) (name : string) ps :
  (forall p, requires_grad (f p) = requires_grad p) ->
  skeleton (alter_named f name ps) = skeleton ps.
Proof.
  intros Hf. unfold skeleton, alter_named. rewrite map_map.
  apply map_ext. intros [n p]. simpl.
  destruct (String.eqb n name); simpl; [rewrite Hf|]; reflexivity.
Qed.

Lemma same_frame_alter_head (f : Param -> Param) (p : ParamPath) (m : Model) :
  (forall q, requires_grad (f q) = requires_grad q) ->
  is_head_path p = true ->
  same_frame m (alter_param f p m).
Proof.
  intros Hf Hp. destruct p as [n|n]; [discriminate|].
  unfold same_frame. simpl. rewrite skeleton_alter_named by assumption.
  repeat split.
Qed.

Lemma same_frame_zero_grad (o : Optimizer) (m : Model) :
  forallb is_head_path (param_group o) = true ->
  same_frame m (zero_grad o m).
Proof.
  unfold zero_grad. generalize (param_group o). intros ps. revert m.
  induction ps as [|p ps IH]; intros m Hps; simpl.
  - apply same_frame_refl.
  - simpl in Hps. apply andb_prop in Hps. destruct Hps as [Hp Hps].
    eapply same_frame_trans; [|apply IH; exact Hps].
    apply same_frame_alter_head; [reflexivity|exact Hp].
Qed.

Lemma accumulate_frozen (g : tensor) (p : Param) :
  requires_grad p = false -> accumulate g p = p.
Proof. intros H. unfold accumulate. rewrite H. reflexivity. Qed.

Lemma requires_grad_accumulate (g : tensor) (p : Param) :
  requires_grad (accumulate g p) = requires_grad p.
Proof. unfold accumulate. destruct (requires_grad p) eqn:E; simpl; auto. Qed.

Lemma same_frame_loss_backward criterion x y (m : Model) :
  Forall frozen (features m) ->
  same_frame m (loss_backward criterion x y m).
Proof.
  intros Hfrozen. unfold same_frame, loss_backward. simpl.
  repeat split.
  - induction (features m) as [|[n p] l IH]; simpl; [reflexivity|].
    inversion Hfrozen; subst. rewrite IH by assumption.
    rewrite accumulate_frozen by assumption. reflexivity.
  - unfold skeleton. rewrite map_map. apply map_ext. intros [n p]. simpl.
    rewrite requires_grad_accumulate. reflexivity.
Qed.

Lemma same_frame_adam_step (rate : scalar) (ps : list ParamPath) :
  forallb is_head_path ps = true ->
  forall (sts : list (option adam_state)) (m : Model),
    same_frame m (snd (adam_step rate ps sts m)) /\
    List.length (fst (adam_step rate ps sts m)) = List.length sts.
Proof.
  induction ps as [|p ps IH]; intros Hps sts m; simpl.
  - split; [apply same_frame_refl|reflexivity].
  - simpl in Hps. apply andb_prop in Hps. destruct Hps as [Hp Hps].
    destruct sts as [|st sts]; [split; [apply same_frame_refl|reflexivity]|].
    destruct (get_param p m) as [prm|].
    + destruct (grad prm) as [g|].
      * destruct (adam rate st (data prm) g) as [st' d'].
        specialize (IH Hps sts (alter_param (set_data d') p m)).
        destruct (adam_step rate ps sts (alter_param (set_data d') p m)) as [rest m'].
        simpl in *. destruct IH as [IH1 IH2]. split; [|congruence].
        eapply same_frame_trans; [|exact IH1].
        apply same_frame_alter_head; [reflexivity|exact Hp].
      * specialize (IH Hps sts m).
        destruct (adam_step rate ps sts m) as [rest m'].
        simpl in *. destruct IH as [IH1 IH2]. split; [exact IH1|congruence].
    + specialize (IH Hps sts m).
      destruct (adam_step rate ps sts m) as [rest m'].
      simpl in *. destruct IH as [IH1 IH2]. split; [exact IH1|congruence].
Qed.

Lemma trained_from_step (m0 : Model) (o0 : Optimizer) :
  Forall frozen (features m0) ->
  forallb is_head_path (param_group o0) = true ->
  forall m o criterion x y,
    trained_from m0 o0 m o ->
    trained_from m0 o0
      (snd (optimizer_step o (loss_backward criterion x y (zero_grad o m))))
      (fst (optimizer_step o (loss_backward criterion x y (zero_grad o m)))).
Proof.
  intros Hfrozen Hhead m o criterion x y (Hframe & Hgroup & Hlr & Hlen).
  assert (Hhead' : forallb is_head_path (param_group o) = true) by congruence.
  assert (F1 : same_frame m (zero_grad o m)) by (apply same_frame_zero_grad; exact Hhead').
  assert (F2 : same_frame (zero_grad o m)
                          (loss_backward criterion x y (zero_grad o m))).
  { apply same_frame_loss_backward.
    destruct F1 as (E1 & _). destruct Hframe as (E0 & _).
    rewrite E1, E0. exact Hfrozen. }
  unfold optimizer_step.
  destruct (same_frame_adam_step (lr o) (param_group o) Hhead' (state o)
              (loss_backward criterion x y (zero_grad o m))) as [F3 L3].
  destruct (adam_step (lr o) (param_group o) (state o)
              (loss_backward criterion x y (zero_grad o m))) as [sts m'].
  unfold trained_from. simpl in *. split; [|repeat split; congruence].
  eapply same_frame_trans; [exact Hframe|].
  eapply same_frame_trans; [exact F1|].
  eapply same_frame_trans; [exact F2|exact F3].
Qed.

Lemma trained_from_mode (m0 : Model) (o0 : Optimizer) m o b :
  trained_from m0 o0 m o -> trained_from m0 o0 (set_training b m) o.
Proof. intros H. exact H. Qed.

(** Whatever [train_model] does and however it ends, the session it
    leaves was trained from the one it got. *)
Lemma train_model_trained_from (env : bool) (E : Z) (tl vl : DataLoader)
    (dev : Device) criterion (s : Session) :
  Forall frozen (features (the_model s)) ->
  forallb is_head_path (param_group (the_optimizer s)) = true ->
  trained_from (the_model s) (the_optimizer s)
               (the_model (snd (train_model env E tl vl dev criterion s)))
               (the_optimizer (snd (train_model env E tl vl dev criterion s))).
Proof.
  intros Hfrozen Hhead.
  apply (@preserves_train_model N T (trained_from (the_model s) (the_optimizer s))).
  - intros. apply trained_from_mode. assumption.
  - intros. apply trained_from_step; assumption.
  - split; [apply same_frame_refl|]. repeat split.
Qed.

End Frozen.

(** ** The frozen backbone *)

Section FrozenBackbone.
Context {N : Numeric} {T : Torch}.

Lemma trainable_of_features (l : list (string * Param)) :
  map fst (filter (fun pp : ParamPath * Param => requires_grad (snd pp))
                  (map (fun np => (InFeatures (fst np), snd np)) l)) =
  map InFeatures (map fst (filter snd (skeleton l))).
Proof.
  induction l as [|[n p] l IH]; simpl; [reflexivity|].
  destruct (requires_grad p); simpl; rewrite IH; reflexivity.
Qed.

Lemma trainable_of_classifier (l : list (string * Param)) :
  map fst (filter (fun pp : ParamPath * Param => requires_grad (snd pp))
                  (map (fun np => (InClassifier (fst np), snd np)) l)) =
  map InClassifier (map fst (filter snd (skeleton l))).
Proof.
  induction l as [|[n p] l IH]; simpl; [reflexivity|].
  destruct (requires_grad p); simpl; rewrite IH; reflexivity.
Qed.

Lemma trainable_by_skeleton (m : Model) :
  trainable_parameters m =
  map InFeatures (map fst (filter snd (skeleton (features m)))) ++
  map InClassifier (map fst (filter snd (skeleton (parameters (classifier m))))).
Proof.
  unfold trainable_parameters, named_parameters.
  rewrite filter_app, map_app, trainable_of_features, trainable_of_classifier.
  reflexivity.
Qed.

Lemma classifier_parameters_by_skeleton (m : Model) :
  classifier_parameters m = map InClassifier (map fst (skeleton (parameters (classifier m)))).
Proof.
  unfold classifier_parameters, skeleton. rewrite !map_map. reflexivity.
Qed.

Lemma names_by_skeleton (m : Model) :
  map fst (named_parameters m) =
  map InFeatures (map fst (skeleton (features m))) ++
  map InClassifier (map fst (skeleton (parameters (classifier m)))).
Proof.
  unfold named_parameters, skeleton. rewrite map_app, !map_map. reflexivity.
Qed.

Lemma same_frame_paths (m0 m : Model) :
  same_frame m0 m ->
  trainable_parameters m = trainable_parameters m0 /\
  classifier_parameters m = classifier_parameters m0 /\
  map fst (named_parameters m) = map fst (named_parameters m0).
Proof.
  intros (Hf & _ & Hs & _).
  rewrite !trainable_by_skeleton, !classifier_parameters_by_skeleton, !names_by_skeleton.
  rewrite Hf, Hs. repeat split.
Qed.

Lemma frozen_map_params (l : list (string * Param)) :
  Forall frozen (map_params (set_requires_grad false) l).
Proof.
  induction l as [|[n p] l IH]; simpl; constructor; auto. reflexivity.
Qed.

Lemma skeleton_frozen (l : list (string * Param)) :
  Forall frozen l -> filter snd (skeleton l) = [].
Proof.
  induction 1 as [|[n p] l Hp _ IH]; simpl; [reflexivity|].
  unfold frozen in Hp. simpl in Hp. rewrite Hp. exact IH.
Qed.

Lemma assembled_frozen (name : string) (h : Z) (d : Device) :
  Forall frozen (features (assembled name h d)).
Proof. simpl. apply frozen_map_params. Qed.

Lemma assembled_trainable (name : string) (h : Z) (d : Device) :
  trainable_parameters (assembled name h d) = classifier_parameters (assembled name h d).
Proof.
  rewrite trainable_by_skeleton, classifier_parameters_by_skeleton.
  rewrite skeleton_frozen by apply assembled_frozen. reflexivity.
Qed.

Lemma head_paths_only (m : Model) :
  forallb is_head_path (classifier_parameters m) = true.
Proof.
  unfold classifier_parameters.
  induction (parameters (classifier m)) as [|np l IH]; simpl; auto.
Qed.

End FrozenBackbone.

(** C3: for a supported name and a positive number of hidden units (on a
    machine that has the requested device) [load_model] returns a model
    whose trainable parameters are exactly those of the classifier head and
    whose backbone parameters all have [requires_grad = False]; the
    optimizer [main] builds references the head's parameters only; and
    training, however long and however it ends, leaves every backbone
    parameter as it was and the trainable set equal to the head. *)
Theorem only_the_head_is_trained (N : Numeric) (T : Torch)
    (env : bool) (name : string) (h : Z) (gpu : bool) :
  In name arch_choices -> 0 < h -> (gpu = true -> env = true) ->
  exists m d width,
    load_model env name h gpu = Ok (m, d, width) /\
    trainable_parameters m = classifier_parameters m /\
    Forall (fun np => requires_grad (snd np) = false) (features m) /\
    forall rate E tl vl dev criterion,
      param_group (the_optimizer (initial_session m rate)) = classifier_parameters m /\
      forall s', s' = snd (train_model env E tl vl dev criterion (initial_session m rate)) ->
        features (the_model s') = features m /\
        trainable_parameters (the_model s') = classifier_parameters (the_model s') /\
        param_group (the_optimizer s') = classifier_parameters (the_model s').
Proof.
  intros _ Hh Hdev.
  eexists. eexists. eexists.
  split; [apply load_model_ok; [lia|exact Hdev]|].
  split; [apply assembled_trainable|].
  split; [apply assembled_frozen|].
  intros rate E tl vl dev criterion. split; [reflexivity|].
  intros s' ->.
  set (m := assembled name h (if gpu then cuda else cpu)).
  destruct (@train_model_trained_from N T env E tl vl dev criterion (initial_session m rate))
    as (Hframe & Hgroup & _).
  - apply assembled_frozen.
  - apply head_paths_only.
  - simpl in Hframe, Hgroup.
    destruct (same_frame_paths Hframe) as (Htr & Hcl & _).
    destruct Hframe as (Hfeat & _).
    split; [exact Hfeat|]. split.
    + rewrite Htr, Hcl. apply assembled_trainable.
    + rewrite Hgroup, Hcl. reflexivity.
Qed.

Section Example_only_the_head_is_trained.
#[local] Existing Instance Toy.numeric.
#[local] Existing Instance Toy.torch.

Lemma only_the_head_is_trained_witness :
  exists m d width,
    load_model false "vgg16" 512 false = Ok (m, d, width) /\
    trainable_parameters m = classifier_parameters m /\
    Forall (fun np => requires_grad (snd np) = false) (features m) /\
    forall rate E tl vl dev criterion,
      param_group (the_optimizer (initial_session m rate)) = classifier_parameters m /\
      forall s', s' = snd (train_model false E tl vl dev criterion (initial_session m rate)) ->
        features (the_model s') = features m /\
        trainable_parameters (the_model s') = classifier_parameters (the_model s') /\
        param_group (the_optimizer s') = classifier_parameters (the_model s').
Proof.
  apply (@only_the_head_is_trained Toy.numeric Toy.torch false "vgg16" 512 false).
  - simpl. auto.
  - lia.
  - discriminate.
Defined.

End Example_only_the_head_is_trained.

(** ** Saving a checkpoint *)

Section SaveFacts.
Context {N : Numeric} {T : Torch}.

Lemma lookup_torch_save_same (obj : Dict) (path : string) (fs : Files) :
  lookup path (torch_save obj path fs) = Some obj.
Proof. unfold torch_save. simpl. rewrite String.eqb_refl. reflexivity. Qed.

Lemma lookup_torch_save_other (obj : Dict) (path other : string) (fs : Files) :
  other <> path -> lookup other (torch_save obj path fs) = lookup other fs.
Proof.
  intros Hne. unfold torch_save. simpl.
  assert (E : String.eqb path other = false) by (apply String.eqb_neq; congruence).
  rewrite E.
  induction fs as [|[p d] fs IH]; simpl; [reflexivity|].
  destruct (String.eqb_spec p path) as [->|Hp]; simpl.
  - rewrite E. exact IH.
  - rewrite IH. reflexivity.
Qed.

(** The dictionary [save_checkpoint] builds. *)
Lemma save_checkpoint_ok (path : string) (m : Model) (first : ImageFolder)
    (rest : list ImageFolder) (E : Z) (o : Optimizer) (rate : scalar)
    (input output : Z) (name : string) (h : Z) (fs : Files) :
  save_checkpoint path m (first :: rest) E o rate input output name h fs =
  Ok (set_class_to_idx (ds_class_to_idx first) m,
      torch_save
        [ ("pretrained_model", VStr name);
          ("input_size", VInt input);
          ("output_size", VInt output);
          ("learning_rate", VFloat rate);
          ("hidden_units", VInt h);
          ("classifier", VModule (classifier m));
          ("epochs", VInt E);
          ("state_dict", VStateDict (state_dict m));
          ("class_to_idx", VClassToIdx (ds_class_to_idx first));
          ("optimizer", VOptimizer (optimizer_state_dict o)) ]
        path fs).
Proof. reflexivity. Qed.

Lemma save_checkpoint_no_dataset (path : string) (m : Model) (E : Z) (o : Optimizer)
    (rate : scalar) (input output : Z) (name : string) (h : Z) (fs : Files) :
  save_checkpoint path m [] E o rate input output name h fs = Raise IndexError.
Proof. reflexivity. Qed.

End SaveFacts.


Section Example_save_checkpoint_fields.
#[local] Existing Instance Toy.numeric.
#[local] Existing Instance Toy.torch.


End Example_save_checkpoint_fields.

(** ** The class picked for a row of probabilities *)

Section TopClass.
Context {N : Numeric}.

(** For an order on the numbers that is irreflexive and transitive, as
    [<] on floats is, the class picked by [topk(1)] is in range and no
    class has a strictly greater probability. *)
Hypothesis fltb_irrefl : forall a, fltb a a = false.
Hypothesis fltb_trans : forall a b c, fltb a b = true -> fltb b c = true -> fltb a c = true.

Lemma argmax_from_spec (d : scalar) (rest : list scalar) :
  forall (prefix : list scalar) (best : nat) (best_p : scalar),
    (best < List.length prefix)%nat ->
    nth best (prefix ++ rest) d = best_p ->
    (forall j, (j < List.length prefix)%nat ->
               fltb best_p (nth j (prefix ++ rest) d) = false) ->
    (argmax_from best best_p (List.length prefix) rest < List.length (prefix ++ rest))%nat /\
    forall j, (j < List.length (prefix ++ rest))%nat ->
              fltb (nth (argmax_from best best_p (List.length prefix) rest) (prefix ++ rest) d)
                   (nth j (prefix ++ rest) d) = false.
Proof.
  induction rest as [|p rest IH]; intros prefix best best_p Hbest Hnth Hmax.
  - simpl. rewrite app_nil_r in *. split; [exact Hbest|].
    intros j Hj. rewrite Hnth. apply Hmax. exact Hj.
  - assert (Hp : nth (List.length prefix) (prefix ++ p :: rest) d = p).
    { rewrite app_nth2 by lia. rewrite Nat.sub_diag. reflexivity. }
    assert (Hshift : prefix ++ p :: rest = (prefix ++ [p]) ++ rest).
    { rewrite <- app_assoc. reflexivity. }
    assert (Hlen : List.length (prefix ++ [p]) = S (List.length prefix)).
    { rewrite length_app. simpl. lia. }
    simpl. rewrite <- Hlen. rewrite Hshift in *.
    destruct (fltb best_p p) eqn:Elt.
    + apply IH.
      * lia.
      * exact Hp.
      * intros j Hj. destruct (Nat.eq_dec j (List.length prefix)) as [->|Hne].
        -- rewrite Hp. apply fltb_irrefl.
        -- destruct (fltb p (nth j ((prefix ++ [p]) ++ rest) d)) eqn:E; [|reflexivity].
           rewrite <- (Hmax j) by lia. symmetry.
           apply fltb_trans with p; assumption.
    + apply IH.
      * lia.
      * exact Hnth.
      * intros j Hj. destruct (Nat.eq_dec j (List.length prefix)) as [->|Hne].
        -- rewrite Hp. exact Elt.
        -- apply Hmax. lia.
Qed.

Lemma top_class_is_maximal (row : list scalar) (d : scalar) :
  row <> [] ->
  0 <= top_class row < Z.of_nat (List.length row) /\
  forall j, (j < List.length row)%nat ->
            fltb (nth (Z.to_nat (top_class row)) row d) (nth j row d) = false.
Proof.
  intros Hrow. destruct row as [|p rest]; [contradiction|].
  unfold top_class.
  destruct (@argmax_from_spec d rest [p] 0%nat p) as [Hk Hmax].
  - simpl. lia.
  - reflexivity.
  - intros j Hj. simpl in Hj. replace j with 0%nat by lia. apply fltb_irrefl.
  - simpl in Hk, Hmax. rewrite Nat2Z.id. split; [simpl; lia|exact Hmax].
Qed.

End TopClass.

(** ** Runs of the training loop *)

Section RunFacts.
Context {N : Numeric} {T : Torch}.
Variable cuda_available : bool.
Variable epochs : Z.
Variable trainloader validateloader : DataLoader.
Variable device : Device.
Variable criterion : list (list scalar) -> list Z -> scalar.
Hypothesis device_exists : device = cuda -> cuda_available = true.

(** A run with a validation source that has batches ends normally, and
    between its two messages its log follows [Steps]. *)
Lemma run_with_validation (s : Session) :
  num_batches validateloader <> 0%nat ->
  log s = [] ->
  exists events locals s',
    Steps (num_batches validateloader) epochs (0, of_int 0)
          (schedule (Z.to_nat epochs) (num_batches trainloader)) events (Ok locals) /\
    train_model cuda_available epochs trainloader validateloader device criterion s =
      (Ok tt, s') /\
    log s' = Print ModelIsTraining :: events ++ [Print ModelTrainedIn].
Proof.
  intros Hm Hlog.
  destruct (train_model_steps epochs trainloader validateloader criterion device_exists s)
    as (events & outcome & s' & Hsteps & Hrun & Hlog').
  destruct (Steps_never_raises Hm Hsteps) as [locals ->].
  exists events, locals, s'. rewrite Hlog in Hlog'. auto.
Qed.

Lemma steps_of_run (events : list Event) :
  steps_of (Print ModelIsTraining :: events ++ [Print ModelTrainedIn]) = steps_of events.
Proof. simpl. rewrite steps_of_app. simpl. apply app_nil_r. Qed.

Lemma validations_of_run (events : list Event) :
  validations_of (Print ModelIsTraining :: events ++ [Print ModelTrainedIn]) =
  validations_of events.
Proof. simpl. rewrite validations_of_app. simpl. apply app_nil_r. Qed.

Lemma step_losses_run (events : list Event) :
  step_losses (Print ModelIsTraining :: events ++ [Print ModelTrainedIn]) =
  step_losses events.
Proof. simpl. rewrite step_losses_app. simpl. apply app_nil_r. Qed.

Lemma reports_run (events : list Event) :
  reports (Print ModelIsTraining :: events ++ [Print ModelTrainedIn]) = reports events.
Proof. simpl. rewrite reports_app. simpl. apply app_nil_r. Qed.

(** The validations entered during one epoch of a run. *)
Lemma triggers_of_epoch (m : nat) (E : Z) (k n : nat) events locals (e : nat) :
  Steps m E (0, of_int 0) (schedule k n) events (Ok locals) ->
  (e < k)%nat ->
  triggers_in_epoch e events =
  map (fun i => (i, Z.of_nat (e * n + i) + 1))
      (filter (fun i => (Z.of_nat (e * n + i) + 1) mod 5 =? 0) (seq 0 n)).
Proof.
  intros Hsteps He. unfold triggers_in_epoch.
  rewrite (Steps_validations Hsteps).
  destruct (Steps_steps_of Hsteps) as [Hnum _]. simpl in Hnum.
  rewrite Hnum, numbered_schedule.
  change (fun x : nat * nat * Z => Nat.eqb (fst (fst x)) e) with (of_epoch e).
  rewrite filter_comm, filter_rows.
  replace (Nat.leb 0 e && Nat.ltb e (0 + k))%bool with true.
  - unfold row. generalize (seq 0 n). intros l.
    induction l as [|i l IH]; simpl; [reflexivity|].
    unfold triggers at 1. simpl.
    destruct (_ =? 0); simpl; rewrite IH; reflexivity.
  - symmetry. apply andb_true_intro. split; [reflexivity|apply Nat.ltb_lt; lia].
Qed.

End RunFacts.

(** C9: [steps] and [running_loss] are set once, before the loop over the
    epochs, and never reset at an epoch boundary.  In a run with a
    validation source that has batches, the step of batch [i] of epoch [e]
    (both counted from 0, [n] batches per epoch) has number [e*n + i + 1];
    a validation is entered exactly at the steps whose number is a
    multiple of 5, so the triggers of epoch [e] are the batches [i] with
    [(e*n + i + 1) mod 5 = 0], which depends on the [e*n] batches of the
    epochs before; the reports average consecutive groups of five step
    losses of the whole run, across epoch boundaries, and the losses of
    the steps after the last multiple of 5 are in no report. *)
Theorem cumulative_step_counter (N : Numeric) (T : Torch)
    (env : bool) (E : Z) (tl vl : DataLoader) (dev : Device)
    (criterion : list (list scalar) -> list Z -> scalar) (s : Session) :
  (dev = cuda -> env = true) ->
  num_batches vl <> 0%nat ->
  log s = [] ->
  exists s',
    train_model env E tl vl dev criterion s = (Ok tt, s') /\
    steps_of (log s') =
      flat_map (fun e => map (fun i => (e, i, Z.of_nat (e * num_batches tl + i) + 1))
                             (seq 0 (num_batches tl)))
               (seq 0 (Z.to_nat E)) /\
    validations_of (log s') = filter (fun x => snd x mod 5 =? 0) (steps_of (log s')) /\
    (forall e, (e < Z.to_nat E)%nat ->
       triggers_in_epoch e (log s') =
       map (fun i => (i, Z.of_nat (e * num_batches tl + i) + 1))
           (filter (fun i => (Z.of_nat (e * num_batches tl + i) + 1) mod 5 =? 0)
                   (seq 0 (num_batches tl)))) /\
    map train_loss (reports (log s')) =
      map (fun c => fdiv (total c) (of_int 5)) (chunks5 (step_losses (log s'))) /\
    List.length (step_losses (log s')) = (Z.to_nat E * num_batches tl)%nat /\
    List.length (reports (log s')) = Nat.div (Z.to_nat E * num_batches tl) 5 /\
    List.concat (chunks5 (step_losses (log s'))) =
      firstn (5 * Nat.div (Z.to_nat E * num_batches tl) 5) (step_losses (log s')).
Proof.
  intros Hdev Hm Hlog.
  destruct (@run_with_validation N T env E tl vl dev criterion Hdev s Hm Hlog)
    as (events & locals & s' & Hsteps & Hrun & Hlog').
  exists s'. split; [exact Hrun|].
  rewrite Hlog'.
  unfold triggers_in_epoch.
  rewrite steps_of_run, validations_of_run, step_losses_run, reports_run.
  destruct (Steps_steps_of Hsteps) as [Hnum _]. simpl in Hnum.
  rewrite numbered_schedule in Hnum.
  assert (Hlen : List.length (step_losses events) = (Z.to_nat E * num_batches tl)%nat).
  { rewrite length_step_losses, Hnum.
    rewrite <- numbered_schedule, length_numbered. apply length_schedule. }
  assert (Hrep : map train_loss (reports events) =
                 map average5 (chunks5 (step_losses events))).
  { apply (Steps_reports Hm Hsteps []); reflexivity. }
  split; [exact Hnum|].
  split; [apply (Steps_validations Hsteps)|].
  split; [intros e He; eapply triggers_of_epoch; eassumption|].
  split; [exact Hrep|].
  split; [exact Hlen|].
  split.
  - rewrite <- (length_map train_loss), Hrep, length_map, length_chunks5, Hlen.
    reflexivity.
  - rewrite concat_chunks5, Hlen. reflexivity.
Qed.

Section Cadence12.
Context {N : Numeric} {T : Torch}.

Lemma filter_mod5_shift (base : Z) (l : list nat) (n e : nat) :
  base = Z.of_nat (e * n) ->
  base mod 5 = 0 ->
  filter (fun i => (Z.of_nat (e * n + i) + 1) mod 5 =? 0) l =
  filter (fun i => (Z.of_nat i + 1) mod 5 =? 0) l.
Proof.
  intros Hbase Hmod. apply filter_ext. intros i. f_equal.
  replace (Z.of_nat (e * n + i) + 1) with (base + (Z.of_nat i + 1)) by lia.
  Z.div_mod_to_equations. lia.
Qed.

End Cadence12.



(** C10: with a validation source of no batches, the validation pass
    raises [ZeroDivisionError] at the division by [len(validateloader)] and
    prints no report; a run therefore raises it at its fifth training
    step, when it has that many, and never prints a report. *)
Theorem empty_validation_source (N : Numeric) (T : Torch)
    (env : bool) (E : Z) (tl vl : DataLoader) (dev : Device)
    (criterion : list (list scalar) -> list Z -> scalar) :
  (dev = cuda -> env = true) ->
  num_batches vl = 0%nat ->
  (forall e running_loss s,
      exists s',
        validate env E vl dev criterion 5 e running_loss s = (Raise ZeroDivisionError, s') /\
        log s' = log s) /\
  (forall s,
      exists outcome s',
        train_model env E tl vl dev criterion s = (outcome, s') /\
        reports (log s') = reports (log s) /\
        (5 <= Z.of_nat (Z.to_nat E * num_batches tl) -> outcome = Raise ZeroDivisionError) /\
        (Z.of_nat (Z.to_nat E * num_batches tl) < 5 -> outcome = Ok tt)).
Proof.
  intros Hdev Hm. split.
  - intros e running_loss s. eexists.
    split; [apply (validate_empty E vl criterion Hdev); exact Hm|reflexivity].
  - intros s.
    destruct (@train_model_steps N T env E tl vl dev criterion Hdev s)
      as (events & outcome & s' & Hsteps & Hrun & Hlog').
    rewrite Hm in Hsteps.
    destruct (Steps_no_validation_source Hsteps) as [Hrep Hout].
    simpl in Hout. rewrite length_schedule in Hout.
    destruct Hout as [Hok Hraise]; [lia|].
    eexists. exists s'. split; [exact Hrun|]. split; [|split].
    + rewrite Hlog'.
      change (Print ModelIsTraining :: events ++
              match outcome with Ok _ => [Print ModelTrainedIn] | Raise _ => [] end)
        with ([Print ModelIsTraining] ++ events ++
              match outcome with Ok _ => [Print ModelTrainedIn] | Raise _ => [] end).
      rewrite !reports_app, Hrep.
      destruct outcome; simpl; rewrite app_nil_r; reflexivity.
    + intros H5. rewrite (Hraise H5). reflexivity.
    + intros H5. destruct (Hok H5) as [locals ->]. reflexivity.
Qed.

Section Examples_of_runs.
#[local] Existing Instance Toy.numeric.
#[local] Existing Instance Toy.torch.

Lemma cumulative_step_counter_witness :
  (cpu = cuda -> false = true) /\
  num_batches (Toy.loader 2) <> 0%nat /\
  log Toy.session = [] /\
  exists s',
    train_model false 2 (Toy.loader 12) (Toy.loader 2) cpu Toy.nll Toy.session = (Ok tt, s') /\
    triggers_in_epoch 1 (log s') = [ (2%nat, 15); (7%nat, 20) ] /\
    List.length (reports (log s')) = 4%nat.
Proof.
  assert (Hdev : cpu = cuda -> false = true) by discriminate.
  assert (Hm : num_batches (Toy.loader 2) <> 0%nat) by discriminate.
  assert (Hlog : log Toy.session = []) by reflexivity.
  repeat split; try assumption.
  destruct (@cumulative_step_counter Toy.numeric Toy.torch false 2 (Toy.loader 12)
              (Toy.loader 2) cpu Toy.nll Toy.session Hdev Hm Hlog)
    as (s' & Hrun & _ & _ & Htrig & _ & _ & Hcount & _).
  exists s'. split; [exact Hrun|]. split.
  - rewrite (Htrig 1%nat) by (simpl; lia). reflexivity.
  - rewrite Hcount. reflexivity.
Defined.




Lemma empty_validation_source_witness :
  (cpu = cuda -> false = true) /\
  num_batches (Toy.loader 0) = 0%nat /\
  exists s',
    train_model false 1 (Toy.loader 12) (Toy.loader 0) cpu Toy.nll Toy.session =
      (Raise ZeroDivisionError, s') /\
    reports (log s') = [].
Proof.
  assert (Hdev : cpu = cuda -> false = true) by discriminate.
  assert (Hm : num_batches (Toy.loader 0) = 0%nat) by reflexivity.
  repeat split; try assumption.
  destruct (@empty_validation_source Toy.numeric Toy.torch false 1 (Toy.loader 12)
              (Toy.loader 0) cpu Toy.nll Hdev Hm)
    as (_ & Hrun).
  destruct (Hrun Toy.session) as (outcome & s' & Hout & Hrep & Hraise & _).
  exists s'. split.
  - rewrite Hout, Hraise; [reflexivity|]. simpl. lia.
  - exact Hrep.
Defined.

End Examples_of_runs.

(** ** Loading what was saved *)

Section RoundTrip.
Context {N : Numeric} {T : Torch}.

Lemma ParamPath_eqb_refl (p : ParamPath) : ParamPath_eqb p p = true.
Proof. destruct p; simpl; apply String.eqb_refl. Qed.

Lemma paths_eqb_refl (l : list ParamPath) : paths_eqb l l = true.
Proof.
  unfold paths_eqb. rewrite Nat.eqb_refl. simpl.
  induction l as [|p l IH]; simpl; [reflexivity|].
  rewrite ParamPath_eqb_refl. exact IH.
Qed.

(** The value stored for a name is the value of the parameter of that
    name, when names are not repeated. *)
Lemma lookup_path_stored (mk : string -> ParamPath) (l : list (string * Param))
    (rest : list (ParamPath * tensor)) :
  (forall a b, ParamPath_eqb (mk a) (mk b) = String.eqb a b) ->
  NoDup (map fst l) ->
  forall n p, In (n, p) l ->
    lookup_path (mk n) (map (fun np => (mk (fst np), data (snd np))) l ++ rest) =
    Some (data p).
Proof.
  intros Hmk. induction l as [|[n0 p0] l IH]; intros Hnodup n p Hin; [contradiction|].
  simpl in *. inversion Hnodup as [|? ? Hnotin Hnodup']; subst.
  rewrite Hmk. destruct Hin as [Heq|Hin].
  - inversion Heq; subst. rewrite String.eqb_refl. reflexivity.
  - destruct (String.eqb_spec n0 n) as [->|Hne].
    + exfalso. apply Hnotin. apply (in_map fst) in Hin. exact Hin.
    + apply IH; assumption.
Qed.

Lemma lookup_path_skip_features (l : list (string * Param)) (n : string)
    (rest : list (ParamPath * tensor)) :
  lookup_path (InClassifier n)
              (map (fun np => (InFeatures (fst np), data (snd np))) l ++ rest) =
  lookup_path (InClassifier n) rest.
Proof. induction l as [|[n0 p0] l IH]; simpl; auto. Qed.

Lemma state_dict_split (m : Model) :
  state_dict m =
  map (fun np => (InFeatures (fst np), data (snd np))) (features m) ++
  map (fun np => (InClassifier (fst np), data (snd np))) (parameters (classifier m)).
Proof.
  unfold state_dict, named_parameters. rewrite map_app, !map_map. reflexivity.
Qed.

(** Loading stored values into parameters of the same names gives the
    stored values and keeps names and flags. *)
Lemma restore_values (mk : string -> ParamPath) (sd : list (ParamPath * tensor))
    (l0 : list (string * Param)) :
  forall l : list (string * Param),
    map fst l0 = map fst l ->
    (forall n p, In (n, p) l -> lookup_path (mk n) sd = Some (data p)) ->
    let restored :=
      map (fun np : string * Param =>
             (fst np, match lookup_path (mk (fst np)) sd with
                      | Some t => set_data t (snd np)
                      | None => snd np
                      end)) l0 in
    map (fun np => (mk (fst np), data (snd np))) restored =
    map (fun np => (mk (fst np), data (snd np))) l /\
    skeleton restored = skeleton l0.
Proof.
  induction l0 as [|[n0 p0] l0 IH]; intros l Hnames Hsd; simpl.
  - destruct l; [split; reflexivity|discriminate].
  - destruct l as [|[n p] l]; [discriminate|].
    simpl in Hnames. inversion Hnames; subst.
    destruct (IH l H1) as [IH1 IH2].
    { intros n' p' Hin. apply Hsd. right. exact Hin. }
    rewrite (Hsd n p) by (left; reflexivity).
    cbv zeta in IH1, IH2. simpl. rewrite IH1, IH2. split; reflexivity.
Qed.

Lemma names_map_params (f : Param -> Param) (l : list (string * Param)) :
  map fst (map_params f l) = map fst l.
Proof. unfold map_params. rewrite map_map. reflexivity. Qed.

Lemma names_of_skeleton (l : list (string * Param)) : map fst (skeleton l) = map fst l.
Proof. unfold skeleton. rewrite map_map. reflexivity. Qed.


(** What a successful [main] went through. *)
Lemma main_inv (env : bool) (given : Args) (ds : list ImageFolder)
    (dls : list DataLoader) nll (fs : Files) (s : Session) (fs' : Files) :
  main env given ds dls nll fs = Ok (s, fs') ->
  exists m0 d w tl vl s1 first,
    load_model env (arch given) (hidden_units given) (gpu given) = Ok (m0, d, w) /\
    nth_error dls 0 = Some tl /\
    nth_error dls 1 = Some vl /\
    train_model env (epochs given) tl vl d nll
                (initial_session m0 (learning_rate given)) = (Ok tt, s1) /\
    nth_error ds 0 = Some first /\
    save_checkpoint (save_dir given) (the_model s1) ds (epochs given) (the_optimizer s1)
                    (learning_rate given) w 102 (arch given) (hidden_units given) fs =
      Ok (set_class_to_idx (ds_class_to_idx first) (the_model s1), fs') /\
    s = set_model (set_class_to_idx (ds_class_to_idx first) (the_model s1)) s1.
Proof.
  unfold main, parse_args. intros H.
  destruct (existsb _ _); cbn [rbind] in H; [|discriminate].
  destruct (load_model env (arch given) (hidden_units given) (gpu given))
    as [[[m0 d] w]|] eqn:Eload; cbn [rbind] in H; [|discriminate].
  unfold getitem in H.
  destruct (nth_error dls 0) as [tl|] eqn:Etl; cbn [rbind] in H; [|discriminate].
  destruct (nth_error dls 1) as [vl|] eqn:Evl; cbn [rbind] in H; [|discriminate].
  destruct (train_model env (epochs given) tl vl d nll
              (initial_session m0 (learning_rate given))) as [[[]|] s1] eqn:Etrain;
    [|discriminate].
  destruct ds as [|first rest]; [discriminate|].
  rewrite save_checkpoint_ok in H. cbn [rbind fst snd] in H.
  inversion H; subst.
  exists m0, d, w, tl, vl, s1, first. repeat split; assumption.
Qed.

Lemma head_names_nodup (i h : Z) : NoDup (map fst (head_parameters i h)).
Proof.
  simpl. repeat constructor; simpl; intuition discriminate.
Qed.

End RoundTrip.


Section Example_checkpoint_round_trip.
#[local] Existing Instance Toy.numeric.
#[local] Existing Instance Toy.torch.


End Example_checkpoint_round_trip.

(** * Further properties *)

(** ** How runs end *)

Section Outcome.
Context {N : Numeric} {T : Torch}.

(** How a run ends on a machine that has the device: it raises exactly
    when the validation source is empty and a fifth step is reached. *)
Lemma train_model_outcome (env : bool) (E : Z) (tl vl : DataLoader) (dev : Device)
    (criterion : list (list scalar) -> list Z -> scalar) (s : Session) :
  (dev = cuda -> env = true) ->
  exists s',
    train_model env E tl vl dev criterion s =
    (if Nat.eqb (num_batches vl) 0 && (5 <=? Z.of_nat (Z.to_nat E * num_batches tl))
     then Raise ZeroDivisionError else Ok tt, s').
Proof.
  intros Hdev.
  destruct (@train_model_steps N T env E tl vl dev criterion Hdev s)
    as (events & outcome & s' & Hsteps & Hrun & _).
  exists s'. rewrite Hrun. f_equal.
  destruct (Nat.eqb_spec (num_batches vl) 0) as [Hm|Hm]; simpl.
  - rewrite Hm in Hsteps.
    destruct (Steps_no_validation_source Hsteps) as [_ Hout].
    simpl in Hout. rewrite length_schedule in Hout.
    destruct Hout as [Hok Hraise]; [lia|].
    destruct (Z.leb_spec 5 (Z.of_nat (Z.to_nat E * num_batches tl))) as [H5|H5].
    + rewrite (Hraise H5). reflexivity.
    + destruct (Hok H5) as [locals ->]. reflexivity.
  - destruct (Steps_never_raises Hm Hsteps) as [locals ->]. reflexivity.
Qed.

End Outcome.


Section MainOutcome.
Context {N : Numeric} {T : Torch}.

Lemma main_outcome_at (env : bool) (given : Args) (first : ImageFolder)
    (rest : list ImageFolder) (tl vl : DataLoader) (others : list DataLoader)
    (nll : list (list scalar) -> list Z -> scalar) (fs : Files) :
  match first_failure env given tl vl with
  | Some e => main env given (first :: rest) (tl :: vl :: others) nll fs = Raise e
  | None => exists s fs', main env given (first :: rest) (tl :: vl :: others) nll fs =
                          Ok (s, fs')
  end.
Proof.
  unfold first_failure, main, parse_args.
  destruct (existsb (String.eqb (arch given)) arch_choices); cbn [negb rbind]; [|reflexivity].
  destruct (Z.ltb_spec (hidden_units given) 0) as [Hneg|Hpos].
  { rewrite load_model_unfold, build_classifier_negative
      by (auto using backbone_width_nonneg).
    reflexivity. }
  destruct (gpu given) eqn:Egpu, env eqn:Eenv; cbn [andb negb].
  2:{ rewrite load_model_unfold, build_classifier_ok
        by (auto using backbone_width_nonneg).
      reflexivity. }
  all: rewrite load_model_ok by (try assumption; try discriminate; auto);
    cbn [rbind getitem nth_error].
  all: match goal with
       | |- context [train_model ?e ?E ?a ?b ?d ?c ?s0] =>
           let Hd := fresh "Hd" in
           assert (Hd : d = cuda -> e = true) by (try reflexivity; try discriminate);
           destruct (@train_model_outcome N T e E a b d c s0 Hd) as [s1 Hrun];
           rewrite Hrun
       end;
    destruct (Nat.eqb (num_batches vl) 0 &&
              (5 <=? Z.of_nat (Z.to_nat (epochs given) * num_batches tl)));
    [reflexivity|];
    rewrite save_checkpoint_ok; cbn [rbind]; eexists; eexists; reflexivity.
Qed.

End MainOutcome.



(** ** Assembly, in full *)




Section Degenerate.
Context {N : Numeric} {T : Torch}.

Lemma train_model_no_epochs (env : bool) (E : Z) (tl vl : DataLoader) (dev : Device)
    (criterion : list (list scalar) -> list Z -> scalar) (s : Session) :
  E <= 0 ->
  train_model env E tl vl dev criterion s =
  (Ok tt, add_log [Print ModelIsTraining; Print ModelTrainedIn] s).
Proof.
  intros HE. unfold train_model, range.
  replace (Z.to_nat E) with 0%nat by (destruct E; simpl; lia).
  unfold bind, emit, modify, ret, add_log. simpl. rewrite <- app_assoc. reflexivity.
Qed.

Lemma parse_args_ok (given : Args) :
  In (arch given) arch_choices -> parse_args given = Ok given.
Proof.
  intros Hin. unfold parse_args.
  replace (existsb (String.eqb (arch given)) arch_choices) with true; [reflexivity|].
  symmetry. apply existsb_exists. exists (arch given). split; [exact Hin|].
  apply String.eqb_refl.
Qed.

(** Epochs in which the train source yields nothing change the session
    only by the passes they start. *)
Lemma empty_epochs (env : bool) (E : Z) (tl vl : DataLoader) (dev : Device)
    (criterion : list (list scalar) -> list Z -> scalar) (k : nat) :
  num_batches tl = 0%nat ->
  forall (a : nat) (locals : Z * scalar) (s : Session),
    for_each (seq a k) (train_epoch env E tl vl dev criterion 5) locals s =
    (Ok locals,
     mkSession (the_model s) (the_optimizer s) (grad_enabled s) (passes s + k) (log s)).
Proof.
  intros Hn. induction k as [|k IH]; intros a locals s.
  - simpl. unfold ret. rewrite Nat.add_0_r. destruct s; reflexivity.
  - cbn [seq]. rewrite for_each_cons. unfold train_epoch at 1.
    unfold bind at 1. unfold iter at 1. unfold batches_of. rewrite Hn.
    cbn [seq map enumerate combine List.length for_each]. unfold ret at 1.
    rewrite IH. cbn [the_model the_optimizer grad_enabled passes log].
    do 2 f_equal. lia.
Qed.

End Degenerate.


(** X11: over a train source that yields no batches [train_model] runs
    its epochs without a step: it returns normally, prints its two
    messages only, and leaves model and optimizer as they were, whatever
    the device and the validation source. *)
Theorem empty_train_source (N : Numeric) (T : Torch)
    (env : bool) (E : Z) (tl vl : DataLoader) (dev : Device)
    (criterion : list (list scalar) -> list Z -> scalar) (s : Session) :
  num_batches tl = 0%nat ->
  train_model env E tl vl dev criterion s =
  (Ok tt,
   mkSession (the_model s) (the_optimizer s) (grad_enabled s)
             (passes s + Z.to_nat E)
             (log s ++ [Print ModelIsTraining; Print ModelTrainedIn])).
Proof.
  intros Hn. unfold train_model, range.
  unfold bind at 1. unfold emit at 1. unfold modify at 1.
  unfold bind at 1. rewrite (@empty_epochs N T env E tl vl dev criterion (Z.to_nat E) Hn).
  unfold bind, emit, modify, ret. simpl. rewrite <- app_assoc. reflexivity.
Qed.

(** X10: [train_model] on the device "cuda" of a machine that has none,
    with at least one epoch and one train batch, raises when it moves the
    first batch: after the opening message and the start of the first
    pass, with no optimizer step taken, model and optimizer as they
    were. *)
Theorem train_model_without_device (N : Numeric) (T : Torch)
    (E : Z) (tl vl : DataLoader)
    (criterion : list (list scalar) -> list Z -> scalar) (s : Session) :
  0 < E ->
  num_batches tl <> 0%nat ->
  train_model false E tl vl cuda criterion s =
  (Raise (RuntimeError NoCudaDevice),
   mkSession (the_model s) (the_optimizer s) (grad_enabled s) (S (passes s))
             (log s ++ [Print ModelIsTraining])).
Proof.
  intros HE Hn. unfold train_model, range.
  destruct (Z.to_nat E) as [|k] eqn:Ek; [lia|].
  unfold bind at 1. unfold emit at 1. unfold modify at 1.
  unfold bind at 1. cbn [seq]. rewrite for_each_cons.
  unfold train_epoch at 1. unfold bind at 1. unfold iter at 1.
  unfold batches_of.
  destruct (num_batches tl) as [|n]; [contradiction|].
  cbn [seq map enumerate combine List.length]. rewrite for_each_cons.
  reflexivity.
Qed.


(** ** The gradient mode *)



Section GradMode.
Context {N : Numeric} {T : Torch}.

Lemma keeps_grad_mode_ret {A} (a : A) : keeps_grad_mode (ret a).
Proof. intros s. reflexivity. Qed.

Lemma keeps_grad_mode_lift {A} (r : Result A) : keeps_grad_mode (lift r).
Proof. intros s. reflexivity. Qed.

Lemma keeps_grad_mode_gets {A} (f : Session -> A) : keeps_grad_mode (gets f).
Proof. intros s. reflexivity. Qed.

Lemma keeps_grad_mode_emit (e : Event) : keeps_grad_mode (emit e).
Proof. intros s. reflexivity. Qed.

Lemma keeps_grad_mode_iter (l : DataLoader) : keeps_grad_mode (iter l).
Proof. intros s. reflexivity. Qed.

Lemma keeps_grad_mode_modify (f : Session -> Session) :
  (forall s, grad_enabled (f s) = grad_enabled s) -> keeps_grad_mode (modify f).
Proof. intros Hf s. apply Hf. Qed.

Lemma keeps_grad_mode_bind {A B} (c : M A) (k : A -> M B) :
  keeps_grad_mode c -> (forall a, keeps_grad_mode (k a)) -> keeps_grad_mode (bind c k).
Proof.
  intros Hc Hk s. unfold bind. specialize (Hc s).
  destruct (c s) as [[a|e] s']; simpl in *.
  - rewrite Hk. exact Hc.
  - exact Hc.
Qed.

Lemma keeps_grad_mode_for_each {A L} (body : A -> L -> M L) (xs : list A) :
  (forall x l, keeps_grad_mode (body x l)) ->
  forall l, keeps_grad_mode (for_each xs body l).
Proof.
  intros Hbody. induction xs as [|x xs IH]; intros l; simpl.
  - apply keeps_grad_mode_ret.
  - apply keeps_grad_mode_bind; auto.
Qed.

(** The context manager puts the mode back whatever its body did. *)
Lemma keeps_grad_mode_with_no_grad {A} (c : M A) : keeps_grad_mode (with_no_grad c).
Proof.
  intros s. unfold with_no_grad.
  destruct (c (set_grad_enabled false s)) as [r s']. reflexivity.
Qed.

Variable cuda_available : bool.
Variable epochs : Z.
Variable trainloader validateloader : DataLoader.
Variable device : Device.
Variable criterion : list (list scalar) -> list Z -> scalar.

Lemma keeps_grad_mode_validate print_every e running_loss :
  keeps_grad_mode (validate cuda_available epochs validateloader device criterion
                            print_every e running_loss).
Proof.
  unfold validate.
  apply keeps_grad_mode_bind; [apply keeps_grad_mode_modify; reflexivity|intros _].
  apply keeps_grad_mode_bind; [apply keeps_grad_mode_with_no_grad|intros [tl ac]].
  repeat (apply keeps_grad_mode_bind; [|intros]);
    auto using keeps_grad_mode_lift, keeps_grad_mode_emit, keeps_grad_mode_ret.
  apply keeps_grad_mode_modify. reflexivity.
Qed.

Lemma keeps_grad_mode_train_batch print_every e ib locals :
  keeps_grad_mode (train_batch cuda_available epochs validateloader device criterion
                               print_every e ib locals).
Proof.
  unfold train_batch. destruct locals as [steps running_loss].
  apply keeps_grad_mode_bind; [apply keeps_grad_mode_lift|intros inputs].
  apply keeps_grad_mode_bind; [apply keeps_grad_mode_lift|intros labels].
  apply keeps_grad_mode_bind; [apply keeps_grad_mode_modify; reflexivity|intros _].
  apply keeps_grad_mode_bind; [apply keeps_grad_mode_gets|intros m].
  apply keeps_grad_mode_bind; [apply keeps_grad_mode_modify; reflexivity|intros _].
  apply keeps_grad_mode_bind; [apply keeps_grad_mode_modify; reflexivity|intros _].
  apply keeps_grad_mode_bind; [apply keeps_grad_mode_emit|intros _].
  destruct (_ =? 0).
  - apply keeps_grad_mode_bind; [apply keeps_grad_mode_emit|intros _].
    apply keeps_grad_mode_bind; [apply keeps_grad_mode_validate|intros].
    apply keeps_grad_mode_ret.
  - apply keeps_grad_mode_ret.
Qed.

Lemma keeps_grad_mode_train_model :
  keeps_grad_mode (train_model cuda_available epochs trainloader validateloader device
                               criterion).
Proof.
  unfold train_model.
  apply keeps_grad_mode_bind; [apply keeps_grad_mode_emit|intros _].
  apply keeps_grad_mode_bind.
  - apply keeps_grad_mode_for_each. intros e locals. unfold train_epoch.
    apply keeps_grad_mode_bind; [apply keeps_grad_mode_iter|intros].
    apply keeps_grad_mode_for_each. intros. apply keeps_grad_mode_train_batch.
  - intros. apply keeps_grad_mode_bind; [apply keeps_grad_mode_emit|intros].
    apply keeps_grad_mode_ret.
Qed.

End GradMode.

(** X4: whatever it is given and whether it returns or raises,
    [train_model] leaves the gradient mode as it found it, and so does
    every validation pass: [torch.no_grad()] is left on the way out. *)
Theorem gradient_mode_restored (N : Numeric) (T : Torch)
    (env : bool) (E : Z) (tl vl : DataLoader) (dev : Device)
    (criterion : list (list scalar) -> list Z -> scalar) (s : Session) :
  grad_enabled (snd (train_model env E tl vl dev criterion s)) = grad_enabled s /\
  forall e running_loss s0,
    grad_enabled (snd (validate env E vl dev criterion 5 e running_loss s0)) =
    grad_enabled s0.
Proof.
  split.
  - apply keeps_grad_mode_train_model.
  - intros. apply keeps_grad_mode_validate.
Qed.


(** ** The mode of the model after a run *)



Section ModeFacts.
Context {N : Numeric} {T : Torch}.

Lemma training_alter_param (f : Param -> Param) (p : ParamPath) (m : Model) :
  training (alter_param f p m) = training m.
Proof. destruct p; reflexivity. Qed.

Lemma training_zero_grad (o : Optimizer) (m : Model) :
  training (zero_grad o m) = training m.
Proof.
  unfold zero_grad. generalize (param_group o). intros ps. revert m.
  induction ps as [|p ps IH]; intros m; simpl; [reflexivity|].
  rewrite IH. apply training_alter_param.
Qed.

Lemma training_adam_step (rate : scalar) (ps : list ParamPath) :
  forall (sts : list (option adam_state)) (m : Model),
    training (snd (adam_step rate ps sts m)) = training m.
Proof.
  induction ps as [|p ps IH]; intros sts m; simpl; [reflexivity|].
  destruct sts as [|st sts]; [reflexivity|].
  destruct (get_param p m) as [prm|].
  - destruct (grad prm) as [g|].
    + destruct (adam rate st (data prm) g) as [st' d'].
      specialize (IH sts (alter_param (set_data d') p m)).
      destruct (adam_step rate ps sts (alter_param (set_data d') p m)) as [rest m'].
      simpl in *. rewrite IH. apply training_alter_param.
    + specialize (IH sts m). destruct (adam_step rate ps sts m) as [rest m'].
      exact IH.
  - specialize (IH sts m). destruct (adam_step rate ps sts m) as [rest m'].
    exact IH.
Qed.

Lemma training_after_step criterion (b : images * list Z) (s : Session) :
  training (the_model (after_step criterion b s)) = training (the_model s).
Proof.
  unfold after_step, optimizer_step. cbn [the_model].
  match goal with
  | |- context [adam_step ?r ?ps ?sts ?m] =>
      pose proof (training_adam_step r ps sts m) as H;
      destruct (adam_step r ps sts m) as [sts' m']
  end.
  cbn [snd] in *. rewrite H. cbn. apply training_zero_grad.
Qed.

Variable cuda_available : bool.
Variable epochs : Z.
Variable trainloader validateloader : DataLoader.
Variable device : Device.
Variable criterion : list (list scalar) -> list Z -> scalar.
Hypothesis device_exists : device = cuda -> cuda_available = true.

(** The mode the model is in after the loop over some batches: evaluation
    mode if a validation raised; training mode if a validation was
    completed; otherwise the mode it had. *)
Lemma train_batches_mode (e : nat) (l : list (nat * (images * list Z))) :
  forall (steps : Z) (running_loss : scalar) (s : Session),
    match for_each l (train_batch cuda_available epochs validateloader device criterion 5 e)
                   (steps, running_loss) s with
    | (Ok locals, s') =>
        fst locals = steps + Z.of_nat (List.length l) /\
        training (the_model s') =
          if steps / 5 <? (steps + Z.of_nat (List.length l)) / 5
          then true else training (the_model s)
    | (Raise _, s') => training (the_model s') = false
    end.
Proof.
  induction l as [|[i b] l IH]; intros steps running_loss s.
  - simpl. unfold ret. split; [lia|].
    rewrite Z.add_0_r, Z.ltb_irrefl. reflexivity.
  - rewrite for_each_cons, (train_batch_spec epochs validateloader criterion device_exists).
    destruct ((steps + 1) mod 5 =? 0) eqn:Etrig.
    + apply Z.eqb_eq in Etrig.
      destruct (Nat.eq_dec (num_batches validateloader) 0) as [Hm|Hm].
      * unfold bind.
        rewrite (validate_empty epochs validateloader criterion device_exists) by exact Hm.
        reflexivity.
      * unfold bind.
        rewrite (validate_spec epochs validateloader criterion device_exists) by exact Hm.
        unfold ret.
        match goal with
        | |- context [for_each l _ (?st, ?rl) ?s1] => specialize (IH st rl s1)
        end.
        match goal with
        | |- match ?r with _ => _ end => destruct r as [[locals|x] s']
        end; [|exact IH].
        destruct IH as [IH1 IH2]. split; [rewrite IH1; cbn [List.length]; lia|].
        rewrite IH2. cbn [the_model after_validation training set_training].
        replace (steps / 5 <? (steps + Z.of_nat (List.length ((i, b) :: l))) / 5) with true.
        -- destruct (_ <? _); reflexivity.
        -- symmetry. apply Z.ltb_lt. cbn [List.length].
           Z.div_mod_to_equations. lia.
    + apply Z.eqb_neq in Etrig.
      match goal with
      | |- context [for_each l _ (?st, ?rl) ?s1] => specialize (IH st rl s1)
      end.
      match goal with
      | |- match ?r with _ => _ end => destruct r as [[locals|x] s']
      end; [|exact IH].
      destruct IH as [IH1 IH2]. split; [rewrite IH1; cbn [List.length]; lia|].
      rewrite IH2.
      replace (training (the_model (add_log _ (after_step criterion b s))))
        with (training (the_model s))
        by (symmetry; apply (training_after_step criterion b s)).
      replace (steps / 5 <? (steps + Z.of_nat (List.length ((i, b) :: l))) / 5)
        with ((steps + 1) / 5 <? (steps + 1 + Z.of_nat (List.length l)) / 5); [reflexivity|].
      cbn [List.length].
      destruct (Z.ltb_spec ((steps + 1) / 5) ((steps + 1 + Z.of_nat (List.length l)) / 5)),
        (Z.ltb_spec (steps / 5) ((steps + Z.of_nat (S (List.length l))) / 5));
        try reflexivity; exfalso; Z.div_mod_to_equations; lia.
Qed.


Lemma length_enumerate {A} (l : list A) : List.length (enumerate l) = List.length l.
Proof. unfold enumerate. rewrite length_combine, length_seq. apply Nat.min_id. Qed.

Lemma train_epochs_mode (k : nat) :
  forall (a : nat) (locals : Z * scalar) (s : Session),
    match for_each (seq a k)
                   (train_epoch cuda_available epochs trainloader validateloader device
                                criterion 5) locals s with
    | (Ok locals', s') =>
        fst locals' = fst locals + Z.of_nat (k * num_batches trainloader) /\
        training (the_model s') =
          if fst locals / 5 <? (fst locals + Z.of_nat (k * num_batches trainloader)) / 5
          then true else training (the_model s)
    | (Raise _, s') => training (the_model s') = false
    end.
Proof.
  induction k as [|k IH]; intros a [steps running_loss] s.
  - simpl. unfold ret. split; [lia|].
    rewrite Z.add_0_r, Z.ltb_irrefl. reflexivity.
  - cbn [seq]. rewrite for_each_cons. unfold train_epoch at 1.
    unfold bind at 1. unfold iter at 1.
    match goal with
    | |- context [for_each (enumerate ?bs) _ _ ?s1] =>
        pose proof (train_batches_mode a (enumerate bs) steps running_loss s1) as H1;
        destruct (for_each (enumerate bs)
                    (train_batch cuda_available epochs validateloader device criterion 5 a)
                    (steps, running_loss) s1) as [[locals1|x] s1'] eqn:E1
    end; [|exact H1].
    rewrite length_enumerate, length_batches_of in H1.
    cbn [the_model] in H1. destruct H1 as [H1 H2].
    specialize (IH (S a) locals1 s1').
    match goal with
    | |- match ?r with _ => _ end => destruct r as [[locals2|x] s2]
    end; [|exact IH].
    destruct IH as [IH1 IH2]. cbn [fst].
    replace (Z.of_nat (S k * num_batches trainloader))
      with (Z.of_nat (num_batches trainloader) + Z.of_nat (k * num_batches trainloader))
      by lia.
    split; [lia|].
    rewrite IH2, H2, H1.
    destruct (Z.ltb_spec ((steps + Z.of_nat (num_batches trainloader)) / 5)
                ((steps + Z.of_nat (num_batches trainloader) +
                  Z.of_nat (k * num_batches trainloader)) / 5)),
      (Z.ltb_spec (steps / 5) ((steps + Z.of_nat (num_batches trainloader)) / 5)),
      (Z.ltb_spec (steps / 5)
         ((steps + (Z.of_nat (num_batches trainloader) +
                    Z.of_nat (k * num_batches trainloader))) / 5));
      try reflexivity; exfalso; Z.div_mod_to_equations; lia.
Qed.

End ModeFacts.



(** ** Calls of the model and labels of the reports *)



Section CountFacts.
Context {N : Numeric} {T : Torch}.

Lemma val_batches_of_app a b : val_batches_of (a ++ b) = val_batches_of a ++ val_batches_of b.
Proof. apply flat_map_app. Qed.

Lemma val_batches_of_val_events (vals : list (scalar * scalar)) :
  val_batches_of (val_events vals) = seq 0 (List.length vals).
Proof.
  rewrite <- map_fst_enumerate. unfold val_events, val_batches_of.
  induction (enumerate vals) as [|jv l IH]; simpl; [reflexivity|].
  rewrite IH. reflexivity.
Qed.

Lemma Steps_val_batches (m : nat) (E : Z) locals sch events outcome :
  m <> 0%nat ->
  Steps m E locals sch events outcome ->
  val_batches_of events = flat_map (fun _ => seq 0 m) (validations_of events) /\
  List.length (reports events) = List.length (validations_of events) /\
  map (fun r => (rep_epoch r, rep_epochs r)) (reports events) =
    map (fun v => (Z.of_nat (fst (fst v)) + 1, E)) (validations_of events).
Proof.
  intros Hm H. induction H; simpl.
  - repeat split.
  - exact IHSteps.
  - destruct IHSteps as (IH1 & IH2 & IH3).
    rewrite val_batches_of_app, reports_app, validations_of_app.
    rewrite val_batches_of_val_events, reports_val_events, validations_of_val_events.
    simpl. rewrite IH1, IH2, IH3, H1. repeat split.
  - contradiction.
Qed.

Lemma length_repeat_seq {A} (m : nat) (l : list A) :
  List.length (flat_map (fun _ => seq 0 m) l) = (m * List.length l)%nat.
Proof.
  induction l as [|a l IH]; simpl; [lia|].
  rewrite length_app, length_seq, IH. lia.
Qed.

Lemma val_batches_of_run (events : list Event) :
  val_batches_of (Print ModelIsTraining :: events ++ [Print ModelTrainedIn]) =
  val_batches_of events.
Proof. simpl. rewrite val_batches_of_app. simpl. apply app_nil_r. Qed.

Lemma validation_epochs_bounded (n k : nat) (x : nat * nat * Z) :
  In x (filter triggers (flat_map (row n) (seq 0 k))) -> (fst (fst x) < k)%nat.
Proof.
  intros Hin. apply filter_In in Hin. destruct Hin as [Hin _].
  apply in_flat_map in Hin. destruct Hin as (e & He & Hx).
  apply in_seq in He. unfold row in Hx. apply in_map_iff in Hx.
  destruct Hx as (i & <- & _). simpl. lia.
Qed.

End CountFacts.

(** X6: a run over [n] train batches per epoch and [m > 0] validation
    batches calls the model on [epochs * n] training batches and, in each
    validation, on the validation batches 0 .. m-1 in order:
    [m * (epochs * n / 5)] validation calls in all. *)
Theorem model_calls_of_a_run (N : Numeric) (T : Torch)
    (env : bool) (E : Z) (tl vl : DataLoader) (dev : Device)
    (criterion : list (list scalar) -> list Z -> scalar) (s : Session) :
  (dev = cuda -> env = true) ->
  num_batches vl <> 0%nat ->
  log s = [] ->
  exists s',
    train_model env E tl vl dev criterion s = (Ok tt, s') /\
    List.length (steps_of (log s')) = (Z.to_nat E * num_batches tl)%nat /\
    val_batches_of (log s') =
      flat_map (fun _ => seq 0 (num_batches vl)) (validations_of (log s')) /\
    List.length (val_batches_of (log s')) =
      (num_batches vl * Nat.div (Z.to_nat E * num_batches tl) 5)%nat.
Proof.
  intros Hdev Hm Hlog.
  destruct (@run_with_validation N T env E tl vl dev criterion Hdev s Hm Hlog)
    as (events & locals & s' & Hsteps & Hrun & Hlog').
  exists s'. split; [exact Hrun|]. rewrite Hlog'.
  rewrite steps_of_run, val_batches_of_run, validations_of_run.
  destruct (Steps_val_batches Hm Hsteps) as (Hvb & Hlenrep & _).
  destruct (Steps_steps_of Hsteps) as [Hnum _]. simpl in Hnum.
  assert (Hlen : List.length (steps_of events) = (Z.to_nat E * num_batches tl)%nat).
  { rewrite Hnum, length_numbered. apply length_schedule. }
  assert (Hrep : map train_loss (reports events) =
                 map average5 (chunks5 (step_losses events))).
  { apply (Steps_reports Hm Hsteps []); reflexivity. }
  split; [exact Hlen|]. split; [exact Hvb|].
  rewrite Hvb, length_repeat_seq, <- Hlenrep.
  rewrite <- (length_map train_loss), Hrep, length_map, length_chunks5,
    length_step_losses, Hlen.
  reflexivity.
Qed.

(** X7: every report of a run is labelled with the epoch (counted from
    1) in which its validation was entered and with the number of epochs:
    each label is "Epoch e/epochs" with [1 <= e <= epochs]. *)
Theorem report_labels (N : Numeric) (T : Torch)
    (env : bool) (E : Z) (tl vl : DataLoader) (dev : Device)
    (criterion : list (list scalar) -> list Z -> scalar) (s : Session) :
  (dev = cuda -> env = true) ->
  num_batches vl <> 0%nat ->
  log s = [] ->
  exists s',
    train_model env E tl vl dev criterion s = (Ok tt, s') /\
    map (fun r => (rep_epoch r, rep_epochs r)) (reports (log s')) =
      map (fun v => (Z.of_nat (fst (fst v)) + 1, E)) (validations_of (log s')) /\
    Forall (fun r => 1 <= rep_epoch r <= E /\ rep_epochs r = E) (reports (log s')).
Proof.
  intros Hdev Hm Hlog.
  destruct (@run_with_validation N T env E tl vl dev criterion Hdev s Hm Hlog)
    as (events & locals & s' & Hsteps & Hrun & Hlog').
  exists s'. split; [exact Hrun|]. rewrite Hlog'.
  rewrite reports_run, validations_of_run.
  destruct (Steps_val_batches Hm Hsteps) as (_ & _ & Hlab).
  split; [exact Hlab|].
  assert (Hall : Forall (fun pr : Z * Z => 1 <= fst pr <= E /\ snd pr = E)
                        (map (fun r => (rep_epoch r, rep_epochs r)) (reports events))).
  { rewrite Hlab. apply Forall_map. apply Forall_forall. intros x Hx. simpl.
    rewrite (Steps_validations Hsteps) in Hx.
    destruct (Steps_steps_of Hsteps) as [Hnum _]. simpl in Hnum.
    rewrite Hnum, numbered_schedule in Hx.
    apply validation_epochs_bounded in Hx. split; [lia|reflexivity]. }
  apply Forall_map in Hall. exact Hall.
Qed.


(** ** The checkpoint of a run *)


Section MainFacts.
Context {N : Numeric} {T : Torch}.

Lemma main_arch_supported (env : bool) (given : Args) (ds : list ImageFolder)
    (dls : list DataLoader) nll (fs : Files) r :
  main env given ds dls nll fs = Ok r -> In (arch given) arch_choices.
Proof.
  unfold main, parse_args. intros H.
  destruct (existsb (String.eqb (arch given)) arch_choices) eqn:Echoice;
    cbn [rbind] in H; [|discriminate].
  apply existsb_exists in Echoice. destruct Echoice as (x & Hin & Heq).
  apply String.eqb_eq in Heq. subst x. exact Hin.
Qed.

End MainFacts.


Section Examples_of_further_properties.
#[local] Existing Instance Toy.numeric.
#[local] Existing Instance Toy.torch.





Lemma model_calls_of_a_run_witness :
  (cpu = cuda -> false = true) /\
  num_batches (Toy.loader 2) <> 0%nat /\
  log Toy.session = [] /\
  exists s',
    train_model false 2 (Toy.loader 12) (Toy.loader 2) cpu Toy.nll Toy.session = (Ok tt, s') /\
    List.length (val_batches_of (log s')) = 8%nat.
Proof.
  assert (Hdev : cpu = cuda -> false = true) by discriminate.
  assert (Hm : num_batches (Toy.loader 2) <> 0%nat) by discriminate.
  assert (Hlog : log Toy.session = []) by reflexivity.
  split; [exact Hdev|]. split; [exact Hm|]. split; [exact Hlog|].
  destruct (@model_calls_of_a_run Toy.numeric Toy.torch false 2 (Toy.loader 12)
              (Toy.loader 2) cpu Toy.nll Toy.session Hdev Hm Hlog)
    as (s' & Hrun & _ & _ & Hcount).
  exists s'. split; [exact Hrun|]. rewrite Hcount. reflexivity.
Defined.

Lemma report_labels_witness :
  (cpu = cuda -> false = true) /\
  num_batches (Toy.loader 2) <> 0%nat /\
  log Toy.session = [] /\
  exists s',
    train_model false 2 (Toy.loader 12) (Toy.loader 2) cpu Toy.nll Toy.session = (Ok tt, s') /\
    Forall (fun r => 1 <= rep_epoch r <= 2 /\ rep_epochs r = 2) (reports (log s')).
Proof.
  assert (Hdev : cpu = cuda -> false = true) by discriminate.
  assert (Hm : num_batches (Toy.loader 2) <> 0%nat) by discriminate.
  assert (Hlog : log Toy.session = []) by reflexivity.
  split; [exact Hdev|]. split; [exact Hm|]. split; [exact Hlog|].
  destruct (@report_labels Toy.numeric Toy.torch false 2 (Toy.loader 12)
              (Toy.loader 2) cpu Toy.nll Toy.session Hdev Hm Hlog)
    as (s' & Hrun & _ & Hall).
  exists s'. split; [exact Hrun|exact Hall].
Defined.


Lemma train_model_without_device_witness :
  0 < 1 /\
  num_batches (Toy.loader 12) <> 0%nat /\
  fst (train_model false 1 (Toy.loader 12) (Toy.loader 2) cuda Toy.nll Toy.session) =
    Raise (RuntimeError NoCudaDevice).
Proof.
  assert (HE : 0 < 1) by lia.
  assert (Hn : num_batches (Toy.loader 12) <> 0%nat) by discriminate.
  split; [exact HE|]. split; [exact Hn|].
  rewrite (@train_model_without_device Toy.numeric Toy.torch 1 (Toy.loader 12)
             (Toy.loader 2) Toy.nll Toy.session HE Hn).
  reflexivity.
Defined.

Lemma empty_train_source_witness :
  num_batches (Toy.loader 0) = 0%nat /\
  fst (train_model false 3 (Toy.loader 0) (Toy.loader 2) cpu Toy.nll Toy.session) = Ok tt.
Proof.
  assert (Hn : num_batches (Toy.loader 0) = 0%nat) by reflexivity.
  split; [exact Hn|].
  rewrite (@empty_train_source Toy.numeric Toy.torch false 3 (Toy.loader 0)
             (Toy.loader 2) cpu Toy.nll Toy.session Hn).
  reflexivity.
Defined.

End Examples_of_further_properties.
